(** * The scoring engine of the horse racing predictor

    A shallow embedding of the class [HorseRacingPredictor] of
    [src/horse_racing_app.py]: the sub-score functions, the composite score
    and [predict_race].

    The Python code computes on [int] and [float] values.  The embedding
    keeps the integers as [Z] and is generic in the type [F] that plays the
    role of [float], through the interface [PyNum].  Two instances are given:

    - [float_num], on Rocq's primitive binary64 floats, which evaluates the
      arithmetic of the sub-scores bit for bit as CPython does;
    - [real_num], on the real numbers, the exact arithmetic that the floats
      round; bounds that need reasoning on sums and quotients of arbitrary
      records are proved there.

    [predict_race] also calls [numpy.exp], the two roundings and
    [DataFrame.sort_values].  The first three form the interface [PyLib],
    instantiated on the reals; the sort is a parameter of [predict_race],
    constrained in the statements by what pandas documents of it.

    A call that may raise returns a [result].

    Two behaviours of the run time lie outside the embedding:

    - CPython raises [OverflowError] on an int too large for a double; the
      embedding follows it on the ints that fit ([fits_float]);
    - [numpy.exp] overflows and underflows; the real exponential stands for
      it on the scores whose exponentials are ordinary doubles
      ([exp_in_range]). *)

From Stdlib Require Import ZArith QArith List String Bool Lia Lra.
From Stdlib Require Import Reals Floats Permutation Sorted.
Import ListNotations.
Close Scope Q_scope.
Open Scope string_scope.
Open Scope Z_scope.

Set Implicit Arguments.
Set Warnings "-inexact-float".

(** ** Python run-time behaviour used by the code *)

Module Py.

(** The exceptions the scoring code raises on ints that fit a double (see
    [fits_float]); on larger ones CPython raises [OverflowError], which the
    embedding does not have. *)
Inductive exn : Type :=
| ZeroDivisionError
| IndexError
| KeyError (key : string).

Inductive result (A : Type) : Type :=
| Ok (a : A)
| Raise (e : exn).
Arguments Ok {A} a.
Arguments Raise {A} e.

Definition bind {A B : Type} (m : result A) (k : A -> result B) : result B :=
  match m with
  | Ok a => k a
  | Raise e => Raise e
  end.

(** [d.get(key, default)] on a field of a record that stands for a dict
    whose key may be absent. *)
Definition get {A : Type} (field : option A) (default : A) : A :=
  match field with
  | Some v => v
  | None => default
  end.

(** A dict literal, as the list of its items in source order. *)
Definition dict (K V : Type) : Type := list (K * V).

Fixpoint lookup {K V : Type} (eqb : K -> K -> bool) (d : dict K V) (k : K)
  : option V :=
  match d with
  | [] => None
  | (k', v) :: d' => if eqb k' k then Some v else lookup eqb d' k
  end.

(** [d.get(k, default)] and [d[k]] on a dict with string keys. *)
Definition sget {V : Type} (d : dict string V) (k : string) (default : V) : V :=
  get (lookup String.eqb d k) default.

Definition sitem {V : Type} (d : dict string V) (k : string) : result V :=
  match lookup String.eqb d k with
  | Some v => Ok v
  | None => Raise (KeyError k)
  end.

(** [d.get(k, default)] on a dict with int keys. *)
Definition zget {V : Type} (d : dict Z V) (k : Z) (default : V) : V :=
  get (lookup Z.eqb d k) default.

(** [len(l)] as a Python int. *)
Definition len {A : Type} (l : list A) : Z := Z.of_nat (List.length l).

(** [l[i]], with Python's negative indices. *)
Definition getitem {A : Type} (l : list A) (i : Z) : result A :=
  let j := (if i <? 0 then len l + i else i)%Z in
  if (j <? 0)%Z then Raise IndexError
  else match nth_error l (Z.to_nat j) with
       | Some v => Ok v
       | None => Raise IndexError
       end.

(** [range(a, b)]. *)
Definition range (a b : Z) : list Z :=
  map (fun k => (a + Z.of_nat k)%Z) (List.seq 0 (Z.to_nat (b - a))).

End Py.
Import Py.

Declare Scope py_scope.
Delimit Scope py_scope with py.
Notation "x <- m ;; k" := (bind m (fun x => k))
  (at level 61, m at next level, right associativity) : py_scope.

(** ** The float interface *)

(** What the code needs of [float]: the conversion from [int], the four
    operations and the two comparisons.  Division is the IEEE one; where
    Python would raise [ZeroDivisionError] the embedding tests the divisor
    first (see [truediv]). *)
Class PyNum (F : Type) : Type := {
  of_int : Z -> F;
  fadd : F -> F -> F;
  fsub : F -> F -> F;
  fmul : F -> F -> F;
  fdiv : F -> F -> F;
  flt : F -> F -> bool;
  fle : F -> F -> bool
}.

Section Arith.
Context {F : Type} `{PyNum F}.

(** A decimal literal of the source, [n/d] with [d] a power of ten.  The
    quotient of two small integers is rounded once, as the literal is when
    Python reads it. *)
Definition lit (q : Q) : F :=
  fdiv (of_int (Qnum q)) (of_int (Zpos (Qden q))).

(** [a / b] on two ints: the quotient of the two conversions.  It is
    CPython's correctly rounded quotient when both ints are doubles (below
    [2^53] in absolute value); between [2^53] and [2^1023] CPython rounds
    the exact quotient once, where this rounds the operands first; and for
    a quotient too large for a double CPython raises [OverflowError], where
    this returns an infinity or the quotient of two infinities. *)
Definition truediv (a b : Z) : result F :=
  if (b =? 0)%Z then Raise ZeroDivisionError
  else Ok (fdiv (of_int a) (of_int b)).

(** [min(a, b)] and [max(a, b)] as the built-ins compute them: the first
    argument is kept unless the second compares strictly below (above). *)
Definition py_min (a b : F) : F := if flt b a then b else a.
Definition py_max (a b : F) : F := if flt a b then b else a.

(** The built-in [sum], which starts from the int 0. *)
Definition py_sum (l : list F) : F := fold_left fadd l (of_int 0).

End Arith.

(** *** Binary64 *)

Module Float64.

(** The nearest double of an int (ties to even), CPython's int-to-float
    conversion for the ints that fit a double.  For the others (from
    [2^1024 - 2^970] on in absolute value) CPython raises [OverflowError],
    where this gives an infinity. *)
Definition of_Z (z : Z) : float :=
  SF2Prim (binary_normalize prec emax z 0 false).

End Float64.

#[export] Instance float_num : PyNum float := {
  of_int := Float64.of_Z;
  fadd := PrimFloat.add;
  fsub := PrimFloat.sub;
  fmul := PrimFloat.mul;
  fdiv := PrimFloat.div;
  flt := PrimFloat.ltb;
  fle := PrimFloat.leb
}.

(** *** Exact arithmetic *)

Module Exact.

Definition ltb (x y : R) : bool := if Rlt_dec x y then true else false.
Definition leb (x y : R) : bool := if Rle_dec x y then true else false.

End Exact.

#[export] Instance real_num : PyNum R := {
  of_int := IZR;
  fadd := Rplus;
  fsub := Rminus;
  fmul := Rmult;
  fdiv := Rdiv;
  flt := Exact.ltb;
  fle := Exact.leb
}.

(** ** Data model *)

(** A horse record: the dict built by the "add horse" form.  A key may be
    absent, hence the options; every read goes through [get]. *)
Record horse (F : Type) : Type := {
  name : option string;
  beyer_speed_figure : option Z;
  recent_beyer_figures : option (list Z);
  recent_finishes : option (list Z);
  race_class : option string;
  horse_class : option string;
  jockey_win_percentage : option F;
  trainer_win_percentage : option F;
  jockey_trainer_combo_win_pct : option F;
  post_position : option Z;
  field_size : option Z;
  race_distance : option F;
  track_condition : option string
}.

(** The attributes set by [__init__]. *)
Record predictor (F : Type) : Type := {
  weights : dict string F;
  track_variants : dict string F;
  post_position_weights : dict Z F
}.

Section Engine.
Context {F : Type} `{PyNum F}.
Open Scope py_scope.
Open Scope string_scope.
Open Scope Z_scope.

Definition init : predictor F := {|
  weights := [
    ("speed_figure", lit 0.25);
    ("recent_form", lit 0.20);
    ("class_level", lit 0.15);
    ("jockey_skill", lit 0.12);
    ("trainer_stats", lit 0.12);
    ("post_position", lit 0.08);
    ("track_condition", lit 0.05);
    ("distance_fitness", lit 0.03) ];
  track_variants := [
    ("fast", lit 1.0); ("good", lit 1.02); ("sloppy", lit 1.05);
    ("muddy", lit 1.08); ("turf_firm", lit 0.98); ("turf_good", lit 1.0) ];
  post_position_weights := [
    (1, lit 0.85); (2, lit 0.90); (3, lit 0.92); (4, lit 0.95); (5, lit 0.97);
    (6, lit 1.0); (7, lit 0.98); (8, lit 0.95); (9, lit 0.92); (10, lit 0.90);
    (11, lit 0.85); (12, lit 0.80); (13, lit 0.75); (14, lit 0.70); (15, lit 0.65) ]
|}.

Definition calculate_speed_score (self : predictor F) (horse_data : horse F)
  : result F :=
  let base_speed := get (beyer_speed_figure horse_data) 70 in
  let track_adj :=
    sget (track_variants self) (get (track_condition horse_data) "fast") (lit 1.0) in
  let distance := get (race_distance horse_data) (lit 6.0) in
  let distance_factor := if fle distance (lit 6.5) then lit 1.0 else lit 0.95 in
  let recent_speeds := get (recent_beyer_figures horse_data) [base_speed] in
  trend_factor <-
    (if 3 <=? len recent_speeds then
       last <- getitem recent_speeds (-1) ;;
       third <- getitem recent_speeds (-3) ;;
       divisor <- getitem recent_speeds (-3) ;;
       trend <- truediv (last - third) divisor ;;
       Ok (fadd (lit 1.0) (fmul trend (lit 0.5)))
     else Ok (lit 1.0)) ;;
  let adjusted_speed :=
    fmul (fmul (fmul (of_int base_speed) track_adj) distance_factor) trend_factor in
  Ok (py_min adjusted_speed (of_int 120)).

(** [enumerate(reversed(l))]. *)
Definition enumerate {A : Type} (l : list A) : list (Z * A) :=
  combine (range 0 (len l)) l.

(** The body of the [for] loop of [calculate_form_score], with the two
    accumulators [weighted_sum] and [total_weight]. *)
Fixpoint form_loop (total_races : Z) (items : list (Z * Z))
    (weighted_sum total_weight : F) : result (F * F) :=
  match items with
  | [] => Ok (weighted_sum, total_weight)
  | (i, finish) :: rest =>
      weight <- truediv (i + 1) total_races ;;
      quotient <- truediv (10 - finish) 10 ;;
      let position_score := py_max (of_int 0) quotient in
      form_loop total_races rest
        (fadd weighted_sum (fmul position_score weight))
        (fadd total_weight weight)
  end.

Definition calculate_form_score (self : predictor F) (horse_data : horse F)
  : result F :=
  let recent_finishes := get (recent_finishes horse_data) [5; 5; 5] in
  let total_races := len recent_finishes in
  if total_races =? 0 then Ok (lit 0.5)
  else
    sums <- form_loop total_races (enumerate (rev recent_finishes))
              (of_int 0) (of_int 0) ;;
    let '(weighted_sum, total_weight) := sums in
    Ok (if flt (of_int 0) total_weight
        then fdiv weighted_sum total_weight
        else lit 0.5).

Definition class_hierarchy : dict string Z := [
  ("maiden", 1); ("claiming", 2); ("allowance", 3);
  ("stakes", 4); ("graded_stakes", 5); ("grade_1", 6) ].

Definition calculate_class_score (self : predictor F) (horse_data : horse F)
  : F :=
  let current_class := get (race_class horse_data) "claiming" in
  let horse_class := get (horse_class horse_data) "claiming" in
  let race_level := sget class_hierarchy current_class 2 in
  let horse_level := sget class_hierarchy horse_class 2 in
  if horse_level >? race_level then lit 1.2
  else if horse_level =? race_level then lit 1.0
  else lit 0.8.

Definition calculate_connection_score (self : predictor F)
    (horse_data : horse F) : F * F :=
  let jockey_win_pct := get (jockey_win_percentage horse_data) (lit 0.10) in
  let trainer_win_pct := get (trainer_win_percentage horse_data) (lit 0.12) in
  let jockey_score := py_min (fdiv jockey_win_pct (lit 0.25)) (lit 1.0) in
  let trainer_score := py_min (fdiv trainer_win_pct (lit 0.25)) (lit 1.0) in
  let combo_success := get (jockey_trainer_combo_win_pct horse_data) (lit 0.10) in
  let combo_bonus := py_min (fdiv combo_success (lit 0.30)) (lit 0.2) in
  (fadd jockey_score (fmul combo_bonus (lit 0.5)),
   fadd trainer_score (fmul combo_bonus (lit 0.5))).

(** The dict comprehension of the large-field branch. *)
Definition large_field_weights : dict Z F :=
  map (fun i => (i, py_max (lit 0.5)
                      (fsub (lit 1.0) (fmul (of_int (i - 6)) (lit 0.05)))))
      (range 1 21).

Definition calculate_post_position_score (self : predictor F)
    (horse_data : horse F) : F :=
  let post := get (post_position horse_data) 5 in
  let field_size := get (field_size horse_data) 10 in
  if field_size <=? 6 then lit 1.0
  else if field_size <=? 10 then
    zget (post_position_weights self) post (lit 0.90)
  else zget large_field_weights post (lit 0.60).

Definition calculate_overall_score (self : predictor F) (horse_data : horse F)
  : result F :=
  speed_score <- calculate_speed_score self horse_data ;;
  form_score <- calculate_form_score self horse_data ;;
  let class_score := calculate_class_score self horse_data in
  let '(jockey_score, trainer_score) :=
    calculate_connection_score self horse_data in
  let post_score := calculate_post_position_score self horse_data in
  w_speed <- sitem (weights self) "speed_figure" ;;
  w_form <- sitem (weights self) "recent_form" ;;
  w_class <- sitem (weights self) "class_level" ;;
  w_jockey <- sitem (weights self) "jockey_skill" ;;
  w_trainer <- sitem (weights self) "trainer_stats" ;;
  w_post <- sitem (weights self) "post_position" ;;
  let total_score :=
    fadd (fadd (fadd (fadd (fadd
      (fmul speed_score w_speed)
      (fmul (fmul form_score (of_int 100)) w_form))
      (fmul (fmul class_score (of_int 100)) w_class))
      (fmul (fmul jockey_score (of_int 100)) w_jockey))
      (fmul (fmul trainer_score (of_int 100)) w_trainer))
      (fmul (fmul post_score (of_int 100)) w_post) in
  Ok total_score.

End Engine.

(** ** Ranking a race *)

(** What [predict_race] takes from numpy and from the built-ins: the
    exponential, [round(x, ndigits)] on a Python float, numpy's rounding (of
    a [np.float64] and of a Series) and the sum of a Series. *)
Class PyLib (F : Type) : Type := {
  np_exp : F -> F;
  py_round : F -> Z -> F;
  np_round : F -> Z -> F;
  series_sum : list F -> F
}.

(** One dict of [results], a row of the DataFrame. *)
Record row (F : Type) : Type := {
  Horse : string;
  Score : F;
  Win_Probability : F;
  Beyer_Figure : F;
  Form_Score : F;
  Class_Score : F;
  Jockey_Score : F;
  Trainer_Score : F;
  Post_Advantage : F
}.

(** A DataFrame: its rows in display order, each with its index label (the
    position the row had in [results]). *)
Definition dataframe (F : Type) : Type := list (Z * row F).

Definition set_Win_Probability {F : Type} (r : row F) (p : F) : row F := {|
  Horse := Horse r;
  Score := Score r;
  Win_Probability := p;
  Beyer_Figure := Beyer_Figure r;
  Form_Score := Form_Score r;
  Class_Score := Class_Score r;
  Jockey_Score := Jockey_Score r;
  Trainer_Score := Trainer_Score r;
  Post_Advantage := Post_Advantage r
|}.

Section Race.
Context {F : Type} `{PyNum F} `{PyLib F}.
Open Scope py_scope.
Open Scope string_scope.
Open Scope Z_scope.

(** [DataFrame.sort_values('Score', ascending=False)], called with the
    default [kind='quicksort']: pandas' own code, taken as a parameter. *)
Variable sort_values_desc : dataframe F -> dataframe F.

(** A list comprehension over a call that may raise. *)
Fixpoint comprehension {A B : Type} (f : A -> result B) (l : list A)
  : result (list B) :=
  match l with
  | [] => Ok []
  | a :: l' => b <- f a ;; bs <- comprehension f l' ;; Ok (b :: bs)
  end.

Definition score_to_probability (self : predictor F) (score : F)
    (all_horses : list (horse F)) : result F :=
  all_scores <- comprehension (calculate_overall_score self) all_horses ;;
  let exp_scores := map (fun s => np_exp (fdiv s (of_int 10))) all_scores in
  let exp_score := np_exp (fdiv score (of_int 10)) in
  Ok (fdiv exp_score (py_sum exp_scores)).

(** The dict appended to [results] for one horse. *)
Definition result_row (self : predictor F) (horses_data : list (horse F))
    (horse : horse F) : result (row F) :=
  score <- calculate_overall_score self horse ;;
  probability <- score_to_probability self score horses_data ;;
  beyer <- calculate_speed_score self horse ;;
  form <- calculate_form_score self horse ;;
  Ok {| Horse := get (name horse) "Unknown";
        Score := py_round score 2;
        Win_Probability := np_round (fmul probability (of_int 100)) 1;
        Beyer_Figure := py_round beyer 1;
        Form_Score := py_round form 3;
        Class_Score := py_round (calculate_class_score self horse) 3;
        Jockey_Score := py_round (fst (calculate_connection_score self horse)) 3;
        Trainer_Score := py_round (snd (calculate_connection_score self horse)) 3;
        Post_Advantage := py_round (calculate_post_position_score self horse) 3 |}.

Definition predict_race (self : predictor F) (horses_data : list (horse F))
  : result (dataframe F) :=
  results <- comprehension (result_row self horses_data) horses_data ;;
  match results with
  | [] => Raise (KeyError "Score")
  | _ :: _ =>
      let results_df := sort_values_desc (enumerate results) in
      let total_prob :=
        series_sum (map (fun ir => Win_Probability (snd ir)) results_df) in
      if flt (of_int 0) total_prob then
        Ok (map (fun ir =>
                   (fst ir,
                    set_Win_Probability (snd ir)
                      (np_round
                         (fmul (fdiv (Win_Probability (snd ir)) total_prob)
                               (of_int 100)) 1)))
                results_df)
      else Ok results_df
  end.

End Race.

(** *** Rounding and the exponential in exact arithmetic *)

Module ExactLib.
Open Scope R_scope.

(** The nearest integer, ties to the even one. *)
Definition rint (x : R) : Z :=
  let n := Int_part x in
  let r := x - IZR n in
  if Rlt_dec r (1 / 2) then n
  else if Rlt_dec (1 / 2) r then (n + 1)%Z
  else if Z.even n then n else (n + 1)%Z.

(** Rounding to [ndigits] decimals (the code passes 1, 2 and 3). *)
Definition round (x : R) (ndigits : Z) : R :=
  IZR (rint (x * IZR (10 ^ ndigits))) / IZR (10 ^ ndigits).

Definition sum (l : list R) : R := fold_left Rplus l 0.

End ExactLib.

(** The exact counterparts of the four library calls.  [exp] stands for
    [numpy.exp] on the arguments for which the latter neither overflows
    (above 709.78 it returns [inf]) nor underflows: see [exp_in_range]. *)
#[export] Instance real_lib : PyLib R := {
  np_exp := exp;
  py_round := ExactLib.round;
  np_round := ExactLib.round;
  series_sum := ExactLib.sum
}.

(** ** Notation for statements *)

Declare Scope num_scope.
Delimit Scope num_scope with num.
Infix "+" := fadd : num_scope.
Infix "-" := fsub : num_scope.
Infix "*" := fmul : num_scope.
Infix "/" := fdiv : num_scope.

(** ** Records used in the statements *)

(** The dict with no key at all. *)
Definition empty_horse {F : Type} : horse F := {|
  name := None; beyer_speed_figure := None; recent_beyer_figures := None;
  recent_finishes := None; race_class := None; horse_class := None;
  jockey_win_percentage := None; trainer_win_percentage := None;
  jockey_trainer_combo_win_pct := None; post_position := None;
  field_size := None; race_distance := None; track_condition := None |}.


Definition with_recent_beyer_figures {F} (h : horse F) (v : list Z) : horse F := {|
  name := name h; beyer_speed_figure := beyer_speed_figure h;
  recent_beyer_figures := Some v;
  recent_finishes := recent_finishes h; race_class := race_class h;
  horse_class := horse_class h;
  jockey_win_percentage := jockey_win_percentage h;
  trainer_win_percentage := trainer_win_percentage h;
  jockey_trainer_combo_win_pct := jockey_trainer_combo_win_pct h;
  post_position := post_position h; field_size := field_size h;
  race_distance := race_distance h; track_condition := track_condition h |}.

Definition with_recent_finishes {F} (h : horse F) (v : list Z) : horse F := {|
  name := name h; beyer_speed_figure := beyer_speed_figure h;
  recent_beyer_figures := recent_beyer_figures h;
  recent_finishes := Some v; race_class := race_class h;
  horse_class := horse_class h;
  jockey_win_percentage := jockey_win_percentage h;
  trainer_win_percentage := trainer_win_percentage h;
  jockey_trainer_combo_win_pct := jockey_trainer_combo_win_pct h;
  post_position := post_position h; field_size := field_size h;
  race_distance := race_distance h; track_condition := track_condition h |}.

Definition with_post {F} (h : horse F) (post size : Z) : horse F := {|
  name := name h; beyer_speed_figure := beyer_speed_figure h;
  recent_beyer_figures := recent_beyer_figures h;
  recent_finishes := recent_finishes h; race_class := race_class h;
  horse_class := horse_class h;
  jockey_win_percentage := jockey_win_percentage h;
  trainer_win_percentage := trainer_win_percentage h;
  jockey_trainer_combo_win_pct := jockey_trainer_combo_win_pct h;
  post_position := Some post; field_size := Some size;
  race_distance := race_distance h; track_condition := track_condition h |}.

(** The record in which every absent key holds the default that the code
    passes to [get] for it. *)
Definition fill_defaults {F : Type} `{PyNum F} (h : horse F) : horse F :=
  let base_speed := get (beyer_speed_figure h) 70%Z in {|
  name := Some (get (name h) "Unknown"%string);
  beyer_speed_figure := Some base_speed;
  recent_beyer_figures := Some (get (recent_beyer_figures h) [base_speed]);
  recent_finishes := Some (get (recent_finishes h) [5; 5; 5]%Z);
  race_class := Some (get (race_class h) "claiming"%string);
  horse_class := Some (get (horse_class h) "claiming"%string);
  jockey_win_percentage := Some (get (jockey_win_percentage h) (lit 0.10));
  trainer_win_percentage := Some (get (trainer_win_percentage h) (lit 0.12));
  jockey_trainer_combo_win_pct :=
    Some (get (jockey_trainer_combo_win_pct h) (lit 0.10));
  post_position := Some (get (post_position h) 5%Z);
  field_size := Some (get (field_size h) 10%Z);
  race_distance := Some (get (race_distance h) (lit 6.0));
  track_condition := Some (get (track_condition h) "fast"%string) |}.

(** The predictor of [__init__] with the two weight entries that
    [calculate_overall_score] does not read set to other values, or deleted
    ([None]). *)
Definition with_unused_weights {F : Type} `{PyNum F}
    (w_track w_distance : option F) : predictor F := {|
  weights :=
    (firstn 6 (weights init)
     ++ match w_track with Some w => [("track_condition", w)] | None => [] end
     ++ match w_distance with Some w => [("distance_fitness", w)] | None => [] end)%list;
  track_variants := track_variants init;
  post_position_weights := post_position_weights init |}.

(** The record that the "add horse" form builds from its initial entries
    (figures "82,84,85", finishes "2,1,3", 12%, 15% and 20% win rates, post 1
    in a field of 8 over 8.5 furlongs on a fast track). *)
Definition form_entry {F : Type} `{PyNum F} : horse F := {|
  name := Some "";
  beyer_speed_figure := Some 85;
  recent_beyer_figures := Some [82; 84; 85];
  recent_finishes := Some [2; 1; 3];
  race_class := Some "maiden";
  horse_class := Some "maiden";
  jockey_win_percentage := Some (fdiv (lit 12.0) (of_int 100));
  trainer_win_percentage := Some (fdiv (lit 15.0) (of_int 100));
  jockey_trainer_combo_win_pct := Some (fdiv (lit 20.0) (of_int 100));
  post_position := Some 1;
  field_size := Some 8;
  race_distance := Some (lit 8.5);
  track_condition := Some "fast" |}.

(** The class table in the spec's words: maiden 1, claiming 2, allowance 3,
    stakes 4, graded_stakes 5, grade_1 6, any other name 2. *)
Definition spec_class_ordinal (c : string) : Z :=
  if String.eqb c "maiden" then 1
  else if String.eqb c "claiming" then 2
  else if String.eqb c "allowance" then 3
  else if String.eqb c "stakes" then 4
  else if String.eqb c "graded_stakes" then 5
  else if String.eqb c "grade_1" then 6
  else 2.

(** The form score in the spec's words, in exact arithmetic: the finishes
    are taken from the most recent one, the one at position [i] (from 0) has
    weight [(i + 1) / total_races] and score [max(0, (10 - finish) / 10)],
    and the result is the weighted average of the scores. *)
Definition spec_position_score (finish : Z) : R :=
  Rmax 0 ((10 - IZR finish) / 10).

Definition spec_weight (total_races i : Z) : R :=
  ((IZR i + 1) / IZR total_races)%R.

Fixpoint rsum (l : list R) : R :=
  match l with
  | [] => 0%R
  | x :: l' => (x + rsum l')%R
  end.

Definition spec_weighted_average (finishes : list Z) : R :=
  let total_races := len finishes in
  let most_recent_first := enumerate (rev finishes) in
  (rsum (map (fun item => spec_position_score (snd item)
                          * spec_weight total_races (fst item))
             most_recent_first)
   / rsum (map (fun item => spec_weight total_races (fst item))
               most_recent_first))%R.

(** The share of one score in the softmax, as [score_to_probability]
    computes it. *)
Definition share {F : Type} `{PyNum F} `{PyLib F} (all_scores : list F)
    (score : F) : F :=
  fdiv (np_exp (fdiv score (of_int 10)))
       (py_sum (map (fun s => np_exp (fdiv s (of_int 10))) all_scores)).

(** The second pass of [predict_race] on one percentage: rescaled by the
    total and rounded when the total is positive, left as it is otherwise. *)
Definition renormalized {F : Type} `{PyNum F} `{PyLib F} (total_prob p : F) : F :=
  if flt (of_int 0) total_prob
  then np_round (fmul (fdiv p total_prob) (of_int 100)) 1
  else p.

Definition reweigh {F : Type} `{PyNum F} `{PyLib F} (total_prob : F)
    (labelled : Z * row F) : Z * row F :=
  (fst labelled,
   set_Win_Probability (snd labelled)
     (renormalized total_prob (Win_Probability (snd labelled)))).

(** The softmax of the spec, [exp(s/10) / sum_j exp(s_j/10)], in exact
    arithmetic. *)
Definition spec_softmax (scores : list R) (s : R) : R :=
  (exp (s / 10) / rsum (map (fun t => exp (t / 10)) scores))%R.

(** The first-round percentage of each horse: the softmax share times 100,
    rounded to one decimal. *)
Definition spec_first_round (scores : list R) : list R :=
  map (fun s => ExactLib.round (spec_softmax scores s * 100) 1) scores.

(** *** What pandas promises of [sort_values] *)

Definition descending_by_score (df : dataframe R) : Prop :=
  Sorted (fun upper lower => (Score (snd lower) <= Score (snd upper))%R) df.

(** The documented contract of [sort_values(..., ascending=False)] for
    every [kind]: the rows are those of the argument, in descending order of
    the key.  Stability is documented for [kind='mergesort'] and
    [kind='stable'] only, not for the default [kind='quicksort'] that the
    code uses. *)
Definition sort_values_contract (sort : dataframe R -> dataframe R) : Prop :=
  forall df, Permutation (sort df) df /\ descending_by_score (sort df).

(** One sort that meets the contract, by insertion.  It is not pandas'
    sort and says nothing of the order in which pandas leaves rows of equal
    Score: it shows that the contract can be met, on the races at which the
    statements are instantiated. *)
Fixpoint insert_desc (x : Z * row R) (df : dataframe R) : dataframe R :=
  match df with
  | [] => [x]
  | y :: df' =>
      if Exact.ltb (Score (snd y)) (Score (snd x))
      then x :: y :: df'
      else y :: insert_desc x df'
  end.

Definition insertion_sort_desc (df : dataframe R) : dataframe R :=
  fold_right insert_desc [] df.

(** The form's record with "0,84,85" typed as the recent figures. *)
Definition zero_third_horse {F : Type} `{PyNum F} : horse F :=
  with_recent_beyer_figures form_entry [0; 84; 85].


Definition six_alike : list (horse R) := repeat form_entry 6.

(** *** The inputs on which the embedding follows the run time *)

(** An int that CPython converts to a float, and divides by another such
    int, without [OverflowError]: below [2^1023] in absolute value the
    conversion is finite, and the quotients of the code, [(10 - finish) / 10]
    and [(last - third) / third] with [third] not 0, are below [2^1024]. *)
Definition fits_float (z : Z) : Prop := - 2 ^ 1023 < z < 2 ^ 1023.

(** The ints of a record that the code converts or divides: the base figure
    ([base_speed * track_adj]), the recent figures (the trend) and the
    recent finishes.  Post position and field size are only compared and
    looked up. *)
Definition ints_fit_float {F : Type} (h : horse F) : Prop :=
  fits_float (get (beyer_speed_figure h) 70)
  /\ Forall fits_float
       (get (recent_beyer_figures h) [get (beyer_speed_figure h) 70])
  /\ Forall fits_float (get (recent_finishes h) [5; 5; 5]).


(** The form's record with "1,0,-1" followed by 307 zeros typed as the
    recent figures. *)
Definition plunging_horse {F : Type} `{PyNum F} : horse F :=
  with_recent_beyer_figures form_entry [1; 0; - 10 ^ 307].

(** ** Definitions used beyond the claims *)

(** The trend of the speed score divides by zero: at least three recent
    figures, the third from last being 0. *)
Definition trend_divides_by_zero {F : Type} (h : horse F) : bool :=
  let figures :=
    get (recent_beyer_figures h) [get (beyer_speed_figure h) 70] in
  (3 <=? len figures)
  && match getitem figures (-3) with
     | Ok 0 => true
     | _ => false
     end.

(** [enumerate] with its counter written out, from [k]. *)
Fixpoint enum_from {A : Type} (k : Z) (l : list A) : list (Z * A) :=
  match l with
  | [] => []
  | a :: l' => (k, a) :: enum_from (k + 1) l'
  end.

(** The numerator and the denominator of [spec_weighted_average]. *)
Definition spec_numerator (total_races : Z) (items : list (Z * Z)) : R :=
  rsum (map (fun item => spec_position_score (snd item)
                         * spec_weight total_races (fst item))%R items).

Definition spec_denominator (total_races : Z) (items : list (Z * Z)) : R :=
  rsum (map (fun item => spec_weight total_races (fst item)) items).

(** Two entries of the form that differ in their finishes: three ninth
    places against three wins. *)
Definition uneven_race : list (horse R) :=
  [with_recent_finishes form_entry [9; 9; 9];
   with_recent_finishes form_entry [1; 1; 1]].

(** ** The page: the "add horse" form and the prediction section of [main] *)

(** [s.lower()] and [s.replace(old, new)] for one-character [old] and [new],
    on ASCII text, which the options of the select boxes are. *)
Definition lower_char (c : Ascii.ascii) : Ascii.ascii :=
  let n := Ascii.nat_of_ascii c in
  if ((65 <=? n) && (n <=? 90))%nat then Ascii.ascii_of_nat (n + 32) else c.

Fixpoint lower (s : string) : string :=
  match s with
  | EmptyString => EmptyString
  | String c s' => String (lower_char c) (lower s')
  end.

Fixpoint replace (old new : Ascii.ascii) (s : string) : string :=
  match s with
  | EmptyString => EmptyString
  | String c s' =>
      String (if Ascii.eqb c old then new else c) (replace old new s')
  end.

(** The characters [' '], ['-'] and ['_']. *)
Definition space : Ascii.ascii := Ascii.ascii_of_nat 32.
Definition hyphen : Ascii.ascii := Ascii.ascii_of_nat 45.
Definition underscore : Ascii.ascii := Ascii.ascii_of_nat 95.

(** The options of the three select boxes. *)
Definition class_options : list string :=
  ["Maiden"; "Claiming"; "Allowance"; "Stakes"; "Graded Stakes"].

Definition track_condition_options : list string :=
  ["Fast"; "Good"; "Sloppy"; "Muddy"; "Turf-Firm"; "Turf-Good"].

(** The entries of the form when "Add Horse to Race" is pressed, the two
    comma-separated texts already read as lists of ints. *)
Record form_fields (F : Type) : Type := {
  horse_name : string;
  beyer_figure : Z;
  recent_beyer_list : list Z;
  recent_finishes_list : list Z;
  race_class_choice : string;
  horse_class_choice : string;
  jockey_pct : F;
  trainer_pct : F;
  combo_pct : F;
  post_position_entry : Z;
  field_size_entry : Z;
  distance : F;
  track_condition_choice : string
}.

(** The dict [horse_data] that the button appends to the session's list;
    the three rates are entered as percentages and divided by 100. *)
Definition horse_data_of_form {F : Type} `{PyNum F} (entries : form_fields F)
  : horse F := {|
  name := Some (horse_name entries);
  beyer_speed_figure := Some (beyer_figure entries);
  recent_beyer_figures := Some (recent_beyer_list entries);
  recent_finishes := Some (recent_finishes_list entries);
  race_class :=
    Some (replace space underscore (lower (race_class_choice entries)));
  horse_class :=
    Some (replace space underscore (lower (horse_class_choice entries)));
  jockey_win_percentage := Some (fdiv (jockey_pct entries) (of_int 100));
  trainer_win_percentage := Some (fdiv (trainer_pct entries) (of_int 100));
  jockey_trainer_combo_win_pct := Some (fdiv (combo_pct entries) (of_int 100));
  post_position := Some (post_position_entry entries);
  field_size := Some (field_size_entry entries);
  race_distance := Some (distance entries);
  track_condition :=
    Some (replace hyphen underscore (lower (track_condition_choice entries)))
|}.

(** [predictions.iloc[i]]. *)
Definition iloc {F : Type} (predictions : dataframe F) (i : Z) : result (row F) :=
  getitem (map snd predictions) i.

(** The three rows shown under "Betting Strategy". *)
Record picks (F : Type) : Type := {
  favorite : row F;
  best_value : row F;
  longshot : row F
}.

Definition betting_strategy {F : Type} (predictions : dataframe F)
  : result (picks F) :=
  (favorite <- iloc predictions 0 ;;
   best_value <- (if 1 <? len predictions
                  then iloc predictions 1 else iloc predictions 0) ;;
   longshot <- (if 3 <=? len predictions
                then iloc predictions (-1) else iloc predictions 0) ;;
   Ok {| favorite := favorite; best_value := best_value; longshot := longshot |})%py.

(** The prediction section: shown ([Some]) when the session holds at least
    two horses, with the table of a fresh predictor and the three picks. *)
Definition prediction_section {F : Type} `{PyNum F} `{PyLib F}
    (sort_values_desc : dataframe F -> dataframe F) (horses : list (horse F))
  : option (result (dataframe F * picks F)) :=
  if negb (len horses =? 0) && (2 <=? len horses) then
    Some (predictions <- predict_race sort_values_desc init horses ;;
          shown <- betting_strategy predictions ;;
          Ok (predictions, shown))%py
  else None.

(** [predictions.head(n)], the rows of the "Top 5" table for [n = 5]. *)
Definition head {F : Type} (predictions : dataframe F) (n : nat) : dataframe F :=
  firstn n predictions.

(** * Properties *)

Unset Implicit Arguments.

(** Closes [fits_float], [ints_fit_float] and [Forall fits_float] on
    explicit ints. *)
Ltac fits :=
  repeat first [apply Forall_nil | apply Forall_cons | split]; reflexivity.

(** ** Worked examples of the spec, on binary64 *)

(** Every decimal literal of the source, read by [lit], is the double that
    Python reads. *)
Example lit_is_the_literal :
  map lit [0.25; 0.20; 0.15; 0.12; 0.08; 0.05; 0.03; 1.0; 1.02; 1.05; 1.08;
           0.98; 0.85; 0.90; 0.92; 0.95; 0.97; 0.80; 0.75; 0.70; 0.65;
           6.0; 6.5; 0.5; 1.2; 0.8; 0.10; 0.30; 0.2; 0.60; 8.5]%Q
  = [0.25; 0.20; 0.15; 0.12; 0.08; 0.05; 0.03; 1.0; 1.02; 1.05; 1.08;
     0.98; 0.85; 0.90; 0.92; 0.95; 0.97; 0.80; 0.75; 0.70; 0.65;
     6.0; 6.5; 0.5; 1.2; 0.8; 0.10; 0.30; 0.2; 0.60; 8.5]%float.
Proof. vm_compute. reflexivity. Qed.

(** The form's entry has speed score 82.23 and form score 0.8167. *)
Example speed_score_example :
  calculate_speed_score init (@form_entry float _) = Ok 82.22713414634147%float.
Proof. vm_compute. reflexivity. Qed.

Example form_score_example :
  calculate_form_score init (@form_entry float _) = Ok 0.81666666666666665%float.
Proof. vm_compute. reflexivity. Qed.

(** ** The composite score *)

Lemma sget_class_hierarchy (c : string) :
  sget class_hierarchy c 2 = spec_class_ordinal c.
Proof.
  unfold sget, spec_class_ordinal, class_hierarchy; cbn [lookup].
  rewrite !(String.eqb_sym _ c).
  repeat match goal with |- context [String.eqb c ?k] => destruct (String.eqb c k) end;
    reflexivity.
Qed.

(** C1: the composite score is the six-term weighted sum of the sub-scores
    (speed on its raw scale, the five others times 100), evaluated left to
    right, whenever the speed and form scores return; it raises what they
    raise otherwise.  The result is the same whatever the [track_condition]
    and [distance_fitness] weight entries hold, and when they are absent. *)
Theorem overall_score_weighted_sum :
  forall (F : Type) (N : PyNum F) (h : horse F) (w_track w_distance : option F),
    let self := with_unused_weights w_track w_distance in
    calculate_overall_score self h =
    (speed_score <- calculate_speed_score self h ;;
     form_score <- calculate_form_score self h ;;
     Ok (speed_score * lit 0.25
         + form_score * of_int 100 * lit 0.20
         + calculate_class_score self h * of_int 100 * lit 0.15
         + fst (calculate_connection_score self h) * of_int 100 * lit 0.12
         + snd (calculate_connection_score self h) * of_int 100 * lit 0.12
         + calculate_post_position_score self h * of_int 100 * lit 0.08)%num)%py
    /\ calculate_overall_score self h = calculate_overall_score init h.
Proof.
  intros F N h w_track w_distance self.
  unfold calculate_overall_score.
  assert (Hs : calculate_speed_score self h = calculate_speed_score init h)
    by reflexivity.
  assert (Hf : calculate_form_score self h = calculate_form_score init h)
    by reflexivity.
  rewrite Hs, Hf.
  destruct (calculate_speed_score init h) as [speed|e]; cbn [bind]; [|split; reflexivity].
  destruct (calculate_form_score init h) as [form|e]; cbn [bind]; [|split; reflexivity].
  destruct (calculate_connection_score self h) as [jockey trainer] eqn:Hc.
  assert (Hc' : calculate_connection_score init h = (jockey, trainer)) by exact Hc.
  rewrite Hc'.
  split; reflexivity.
Qed.


(** ** What can be raised *)

(** The lemmas of this section are about the embedding, which has no
    [OverflowError]: they hold of the code on the records whose ints fit a
    double ([ints_fit_float]). *)

Section Raising.
Context {F : Type} `{PyNum F}.

Lemma getitem_in_range {A : Type} (l : list A) (i : Z) :
  - len l <= i < len l -> exists v, getitem l i = Ok v.
Proof.
  unfold getitem, len; intros Hi.
  set (j := if i <? 0 then Z.of_nat (List.length l) + i else i).
  assert (Hj : 0 <= j < Z.of_nat (List.length l)).
  { subst j; destruct (Z.ltb_spec i 0); lia. }
  destruct (Z.ltb_spec j 0) as [Hneg|_]; [lia|].
  destruct (nth_error l (Z.to_nat j)) as [v|] eqn:Hn; [now exists v|].
  apply nth_error_None in Hn; lia.
Qed.

Lemma form_loop_returns (total_races : Z) (items : list (Z * Z)) :
  total_races <> 0 ->
  forall weighted_sum total_weight : F,
    exists sums, form_loop total_races items weighted_sum total_weight = Ok sums.
Proof.
  intros Hn; induction items as [|[i finish] rest IH]; intros ws tw; cbn [form_loop].
  - now exists (ws, tw).
  - unfold truediv.
    destruct (Z.eqb_spec total_races 0) as [E|_]; [contradiction|].
    cbn [bind Z.eqb]. apply IH.
Qed.

Lemma form_score_returns (self : predictor F) (h : horse F) :
  exists v, calculate_form_score self h = Ok v.
Proof.
  unfold calculate_form_score.
  destruct (Z.eqb_spec (len (get (recent_finishes h) [5; 5; 5])) 0) as [E|Hn].
  - now eexists.
  - destruct (form_loop_returns _
                (enumerate (rev (get (recent_finishes h) [5; 5; 5])))
                Hn (of_int 0) (of_int 0)) as [[ws tw] Hl].
    rewrite Hl; cbn [bind]. now eexists.
Qed.

End Raising.

(** C6: the class score is [1.2] when the ordinal of the horse's class is
    above the ordinal of the race's class, [1.0] when the two are equal and
    [0.8] when it is below, the ordinals being read in the table of the spec
    (an unknown class, like an absent one, counts as claiming, 2). *)
Theorem class_score_three_values :
  forall (F : Type) (N : PyNum F) (self : predictor F) (h : horse F),
    let horse_level := spec_class_ordinal (get (horse_class h) "claiming") in
    let race_level := spec_class_ordinal (get (race_class h) "claiming") in
    1 <= horse_level <= 6 /\ 1 <= race_level <= 6 /\
    ((race_level < horse_level /\ calculate_class_score self h = lit 1.2)
     \/ (horse_level = race_level /\ calculate_class_score self h = lit 1.0)
     \/ (horse_level < race_level /\ calculate_class_score self h = lit 0.8)).
Proof.
  intros F N self h horse_level race_level.
  assert (Hrange : forall c, 1 <= spec_class_ordinal c <= 6).
  { intros c; unfold spec_class_ordinal.
    repeat match goal with |- context [String.eqb c ?k] => destruct (String.eqb c k) end;
      lia. }
  split; [apply Hrange|]. split; [apply Hrange|].
  unfold calculate_class_score.
  rewrite !sget_class_hierarchy.
  fold horse_level race_level.
  destruct (Z.gtb_spec horse_level race_level) as [Hgt|Hle].
  - left; split; [lia | reflexivity].
  - destruct (Z.eqb_spec horse_level race_level) as [Heq|Hne].
    + right; left; split; [assumption | reflexivity].
    + right; right; split; [lia | reflexivity].
Qed.

(** On binary64 the three values are the doubles nearest 0.8, 1.0 and 1.2. *)
Example class_score_values_binary64 :
  (lit 0.8, lit 1.0, lit 1.2) = (0.8, 1.0, 1.2)%float.
Proof. vm_compute. reflexivity. Qed.

(** C8 (what the code does): with at least three recent figures of which the
    third from last is 0, the trend divides by zero and
    [calculate_speed_score] raises [ZeroDivisionError]; no fallback replaces
    the trend factor by 1.0. *)
Theorem speed_score_zero_third_raises :
  forall (F : Type) (N : PyNum F) (self : predictor F) (h : horse F)
         (figures : list Z),
    recent_beyer_figures h = Some figures ->
    3 <= len figures ->
    getitem figures (-3) = Ok 0 ->
    calculate_speed_score self h = Raise ZeroDivisionError.
Proof.
  intros F N self h figures Hfig Hlen Hthird.
  unfold calculate_speed_score.
  rewrite Hfig; cbn [get].
  destruct (Z.leb_spec 3 (len figures)) as [_|Hlt]; [|lia].
  destruct (getitem_in_range figures (-1)) as [a Ha]; [lia|].
  rewrite Ha, Hthird; reflexivity.
Qed.

Lemma speed_score_zero_third_raises_witness :
  recent_beyer_figures (@zero_third_horse float _) = Some [0; 84; 85]
  /\ 3 <= len [0; 84; 85]
  /\ getitem [0; 84; 85] (-3) = Ok 0
  /\ calculate_speed_score init (@zero_third_horse float _)
     = Raise ZeroDivisionError.
Proof.
  split; [reflexivity|]. split; [vm_compute; discriminate|].
  split; [reflexivity|].
  apply (@speed_score_zero_third_raises float float_num init zero_third_horse
           [0; 84; 85]).
  - reflexivity.
  - vm_compute; discriminate.
  - reflexivity.
Defined.

(** ** Absent keys *)

(** C7 (as the code has it): an absent key never makes the engine fail.
    Every function returns on a record what it returns on the record with
    the defaults filled in, value or exception; a key that is present is
    read as supplied; and the record with no key at all gets a composite
    score. *)
Theorem missing_fields_read_defaults :
  forall (F : Type) (N : PyNum F) (self : predictor F) (h : horse F),
    calculate_speed_score self h = calculate_speed_score self (fill_defaults h)
    /\ calculate_form_score self h = calculate_form_score self (fill_defaults h)
    /\ calculate_class_score self h = calculate_class_score self (fill_defaults h)
    /\ calculate_connection_score self h
       = calculate_connection_score self (fill_defaults h)
    /\ calculate_post_position_score self h
       = calculate_post_position_score self (fill_defaults h)
    /\ calculate_overall_score self h
       = calculate_overall_score self (fill_defaults h)
    /\ (forall (A : Type) (supplied default : A),
          get (Some supplied) default = supplied)
    /\ (exists v, calculate_overall_score init (@empty_horse F) = Ok v).
Proof.
  intros F N self h.
  repeat (split; [reflexivity|]).
  eexists; reflexivity.
Qed.

(** C7, the claim as stated fails: on the record with no key at all every
    sub-score function returns a value computed from the defaults, and so
    does the composite score. *)
Lemma empty_record_is_scored :
  calculate_speed_score init (@empty_horse float) = Ok 70%float
  /\ calculate_form_score init (@empty_horse float) = Ok 0.5%float
  /\ calculate_class_score init (@empty_horse float) = 1%float
  /\ calculate_connection_score init (@empty_horse float)
     = (0.5, 0.57999999999999996)%float
  /\ calculate_post_position_score init (@empty_horse float)
     = 0.96999999999999997%float
  /\ calculate_overall_score init (@empty_horse float)
     = Ok 63.219999999999999%float.
Proof. repeat split; vm_compute; reflexivity. Qed.

(** ** Post position *)

Section PostPosition.
Context {F : Type} `{PyNum F}.

(** The dict comprehension over [range(a, b)] has exactly the keys of the
    range. *)
Lemma lookup_comprehension {V : Type} (f : Z -> V) (n : nat) (a k : Z) :
  lookup Z.eqb
    (map (fun j => (a + Z.of_nat j, f (a + Z.of_nat j))) (List.seq 0 n)) k
  = if (a <=? k) && (k <? a + Z.of_nat n) then Some (f k) else None.
Proof.
  revert a; induction n as [|n IH]; intros a.
  - cbn [List.seq map lookup].
    destruct (Z.leb_spec a k), (Z.ltb_spec k (a + Z.of_nat 0));
      cbn; try reflexivity; lia.
  - cbn [List.seq map lookup].
    rewrite <- seq_shift, map_map.
    rewrite (map_ext
               (fun j => (a + Z.of_nat (S j), f (a + Z.of_nat (S j))))
               (fun j => (a + 1 + Z.of_nat j, f (a + 1 + Z.of_nat j)))).
    2:{ intros j. replace (a + Z.of_nat (S j)) with (a + 1 + Z.of_nat j) by lia.
        reflexivity. }
    rewrite IH, Z.add_0_r.
    destruct (Z.eqb_spec a k) as [->|Hne].
    + destruct (Z.leb_spec k k), (Z.ltb_spec k (k + Z.of_nat (S n)));
        cbn; try reflexivity; lia.
    + destruct (Z.leb_spec (a + 1) k), (Z.ltb_spec k (a + 1 + Z.of_nat n)),
        (Z.leb_spec a k), (Z.ltb_spec k (a + Z.of_nat (S n)));
        cbn; try reflexivity; lia.
Qed.

Lemma large_field_weights_get (post : Z) (default : F) :
  zget large_field_weights post default
  = if (1 <=? post) && (post <? 21)
    then py_max (lit 0.5) (lit 1.0 - of_int (post - 6) * lit 0.05)%num
    else default.
Proof.
  unfold zget, large_field_weights, range.
  rewrite map_map.
  rewrite (lookup_comprehension
             (fun i => py_max (lit 0.5) (lit 1.0 - of_int (i - 6) * lit 0.05)%num)).
  change (1 + Z.of_nat (Z.to_nat (21 - 1))) with 21.
  destruct ((1 <=? post) && (post <? 21)); reflexivity.
Qed.

End PostPosition.

(** The table of [__init__], read at any int, on binary64. *)
Lemma post_position_weights_range (post : Z) :
  let score := zget (post_position_weights init) post (lit 0.90) in
  (PrimFloat.leb (lit 0.65) score && PrimFloat.leb score (lit 1.0))%bool = true
  /\ (PrimFloat.leb (lit 0.5) score && PrimFloat.leb score (lit 1.25))%bool = true.
Proof.
  unfold zget; cbn [post_position_weights init lookup].
  repeat match goal with
         | |- context [Z.eqb ?k post] =>
             destruct (Z.eqb_spec k post) as [?|?];
             [subst post; vm_compute; split; reflexivity|]
         end.
  vm_compute; split; reflexivity.
Qed.

(** The large-field formula at the twenty posts it is computed for. *)
Lemma large_field_formula_range (post : Z) :
  1 <= post <= 20 ->
  let score : float :=
    py_max (lit 0.5) (lit 1.0 - of_int (post - 6) * lit 0.05)%num in
  (PrimFloat.leb (lit 0.5) score && PrimFloat.leb score (lit 1.25))%bool = true.
Proof.
  intros Hpost.
  assert (E : post = 1 \/ post = 2 \/ post = 3 \/ post = 4 \/ post = 5
              \/ post = 6 \/ post = 7 \/ post = 8 \/ post = 9 \/ post = 10
              \/ post = 11 \/ post = 12 \/ post = 13 \/ post = 14 \/ post = 15
              \/ post = 16 \/ post = 17 \/ post = 18 \/ post = 19 \/ post = 20)
    by lia.
  repeat (destruct E as [->|E]; [vm_compute; reflexivity|]).
  subst post; vm_compute; reflexivity.
Qed.

(** C10 (as the code has it), on binary64: the post score lies in
    [[0.5, 1.25]].  It is 1.0 in a field of at most 6; the table value, in
    [[0.65, 1.0]], or the default 0.90 in a field of 7 to 10; and in a larger
    field [max(0.5, 1.0 - (post - 6) * 0.05)] for the posts 1 to 20, which
    exceeds 1.0 for the posts 1 to 5, and 0.60 for any other post. *)
Theorem post_position_score_range :
  forall h : horse float,
    let post := get (post_position h) 5 in
    let size := get (field_size h) 10 in
    let score := calculate_post_position_score init h in
    (PrimFloat.leb (lit 0.5) score && PrimFloat.leb score (lit 1.25))%bool = true
    /\ ((size <= 6 /\ score = lit 1.0)
        \/ (6 < size <= 10
            /\ score = zget (post_position_weights init) post (lit 0.90)
            /\ (PrimFloat.leb (lit 0.65) score
                && PrimFloat.leb score (lit 1.0))%bool = true)
        \/ (10 < size /\ 1 <= post <= 20
            /\ score = py_max (lit 0.5)
                         (lit 1.0 - of_int (post - 6) * lit 0.05)%num)
        \/ (10 < size /\ (post < 1 \/ 20 < post) /\ score = lit 0.60)).
Proof.
  intros h post size score; subst score.
  unfold calculate_post_position_score; fold post size.
  destruct (Z.leb_spec size 6) as [H6|H6].
  { split; [vm_compute; reflexivity | left; split; [assumption | reflexivity]]. }
  destruct (Z.leb_spec size 10) as [H10|H10].
  { destruct (post_position_weights_range post) as [Htable Hwide].
    split; [exact Hwide|].
    right; left; repeat split; [assumption.. | exact Htable]. }
  rewrite large_field_weights_get.
  destruct (Z.leb_spec 1 post) as [H1|H1], (Z.ltb_spec post 21) as [H21|H21];
    cbn [andb].
  - split; [apply large_field_formula_range; lia|].
    right; right; left; repeat split; lia.
  - split; [vm_compute; reflexivity|].
    right; right; right; repeat split; [lia | right; lia].
  - split; [vm_compute; reflexivity|].
    right; right; right; repeat split; [lia | left; lia].
  - split; [vm_compute; reflexivity|].
    right; right; right; repeat split; [lia | left; lia].
Qed.

(** C10, the claim as stated fails: in a field of 12 the post 1 scores 1.25,
    above the claimed upper bound 1.0. *)
Lemma post_one_large_field_exceeds_one :
  calculate_post_position_score init (with_post (@empty_horse float) 1 12)
  = 1.25%float
  /\ PrimFloat.ltb 1 (calculate_post_position_score init
                        (with_post (@empty_horse float) 1 12)) = true.
Proof. split; vm_compute; reflexivity. Qed.

(** ** Exact arithmetic: the comparisons and the literals *)

Section RealFacts.
Open Scope R_scope.

Lemma ltb_true (x y : R) : Exact.ltb x y = true <-> x < y.
Proof. unfold Exact.ltb; destruct (Rlt_dec x y); split; intros; try easy. Qed.

Lemma py_min_real (a b : R) : py_min a b = Rmin a b.
Proof.
  unfold py_min, Rmin; cbn [flt real_num]; unfold Exact.ltb.
  destruct (Rlt_dec b a), (Rle_dec a b); lra.
Qed.

Lemma py_max_real (a b : R) : py_max a b = Rmax a b.
Proof.
  unfold py_max, Rmax; cbn [flt real_num]; unfold Exact.ltb.
  destruct (Rlt_dec a b), (Rle_dec a b); lra.
Qed.

Lemma lit_real (q : Q) : lit q = IZR (Qnum q) / IZR (Zpos (Qden q)).
Proof. reflexivity. Qed.

End RealFacts.

(** Unfold the interface at the real instance and the literals of the
    source to quotients of integer constants. *)
Ltac real_arith :=
  rewrite ?py_min_real, ?py_max_real, ?lit_real in *;
  cbn [of_int fadd fsub fmul fdiv flt fle real_num Qnum Qden] in *.

(** ** The speed score *)

Lemma getitem_In {A : Type} (l : list A) (i : Z) (v : A) :
  getitem l i = Ok v -> In v l.
Proof.
  unfold getitem.
  destruct (_ <? 0); [discriminate|].
  destruct (nth_error l _) as [w|] eqn:Hn; [|discriminate].
  intros [= <-]. eapply nth_error_In; eassumption.
Qed.

Section SpeedScore.
Open Scope R_scope.

(** Every track multiplier of [__init__], and the default, is positive. *)
Lemma track_variant_positive (condition : string) :
  0 < sget (track_variants (@init R _)) condition (lit 1.0).
Proof.
  unfold sget; cbn [track_variants init lookup].
  repeat match goal with
         | |- context [String.eqb ?k condition] => destruct (String.eqb k condition)
         end;
    cbn [get]; real_arith; lra.
Qed.

Lemma distance_factor_positive (distance : R) :
  0 < (if fle distance (lit 6.5) then lit 1.0 else lit 0.95 : R).
Proof. destruct (fle distance (lit 6.5)); real_arith; lra. Qed.

(** In exact arithmetic: when [calculate_speed_score] returns, the value is
    at most 120; and with the tables of [__init__] it is non-negative
    provided the base figure is non-negative and the recent figures are
    positive. *)
Lemma speed_score_real_bounds :
  forall (self : predictor R) (h : horse R) (v : R),
    calculate_speed_score self h = Ok v ->
    v <= 120
    /\ (self = init ->
        (0 <= get (beyer_speed_figure h) 70)%Z ->
        Forall (fun figure => (0 < figure)%Z)
               (get (recent_beyer_figures h) [get (beyer_speed_figure h) 70%Z]) ->
        0 <= v).
Proof.
  intros self h v; unfold calculate_speed_score.
  set (base := get (beyer_speed_figure h) 70%Z).
  set (figures := get (recent_beyer_figures h) [base]).
  set (track_adj := sget (track_variants self) _ _).
  set (factor := if fle _ _ then _ else _).
  intros Hv.
  assert (Htrend : exists trend_factor : R,
             v = py_min (IZR base * track_adj * factor * trend_factor) 120
             /\ (Forall (fun figure => (0 < figure)%Z) figures -> 0 < trend_factor)).
  { destruct (3 <=? len figures)%Z.
    - destruct (getitem figures (-1)) as [a|] eqn:Ha; [|discriminate].
      destruct (getitem figures (-3)) as [c|] eqn:Hc; [|discriminate].
      cbn [bind] in Hv. unfold truediv in Hv.
      destruct (Z.eqb_spec c 0) as [|Hc0]; [discriminate|].
      cbn [bind] in Hv. injection Hv as <-.
      eexists; split; [reflexivity|].
      intros Hpos; rewrite Forall_forall in Hpos.
      apply getitem_In, Hpos in Ha. apply getitem_In, Hpos in Hc.
      real_arith. rewrite minus_IZR.
      apply IZR_lt in Ha, Hc.
      match goal with
      | |- 0 < ?e =>
          replace e with ((IZR a + IZR c) / (2 * IZR c)) by (field; lra)
      end.
      apply Rdiv_lt_0_compat; lra.
    - cbn [bind] in Hv. injection Hv as <-.
      eexists; split; [reflexivity|]. intros _; real_arith; lra. }
  destruct Htrend as [trend_factor [-> Hpos]].
  rewrite py_min_real. split; [apply Rmin_r|].
  intros -> Hbase Hfig. specialize (Hpos Hfig).
  apply Rmin_glb; [|lra].
  apply IZR_le in Hbase.
  pose proof (track_variant_positive (get (track_condition h) "fast")) as Ht.
  pose proof (distance_factor_positive (get (race_distance h) (lit 6.0))) as Hd.
  fold track_adj in Ht. fold factor in Hd.
  repeat apply Rmult_le_pos; lra.
Qed.

End SpeedScore.

(** *** The cap on binary64 *)

Section Binary64Order.

Lemma SFcompare_antisym (a b : spec_float) :
  SFcompare b a = option_map CompOpp (SFcompare a b).
Proof.
  destruct a as [sa|sa| |sa ma ea], b as [sb|sb| |sb mb eb]; cbn;
    try destruct sa; try destruct sb; try reflexivity;
    rewrite (Z.compare_antisym ea eb);
    destruct (Z.compare ea eb); cbn; try reflexivity;
    pose proof (Pos.compare_cont_antisym ma mb Eq) as Hm; cbn [CompOpp] in Hm;
    rewrite <- Hm;
    destruct (Pos.compare_cont Eq ma mb); reflexivity.
Qed.

(** The comparison of two doubles is total away from the NaNs. *)
Lemma ltb_false_leb (a b : float) :
  PrimFloat.ltb a b = false ->
  PrimFloat.leb b a = true \/ is_nan a = true \/ is_nan b = true.
Proof.
  unfold is_nan.
  rewrite ltb_spec, leb_spec, !eqb_spec.
  unfold SFltb, SFleb, SFeqb.
  rewrite (SFcompare_antisym (Prim2SF a) (Prim2SF b)).
  destruct (Prim2SF a) as [sa|sa| |sa ma ea],
           (Prim2SF b) as [sb|sb| |sb mb eb];
    try (cbn; auto; fail);
    destruct (SFcompare _ _) as [[]|] eqn:E; cbn; auto; try discriminate;
    cbn in E; destruct sa, sb; discriminate.
Qed.

Lemma py_min_binary64_cap (x cap : float) :
  is_nan cap = false ->
  PrimFloat.leb (py_min x cap) cap = true \/ is_nan (py_min x cap) = true.
Proof.
  intros Hcap; unfold py_min; cbn [flt float_num].
  destruct (PrimFloat.ltb cap x) eqn:E.
  - destruct (ltb_false_leb cap cap) as [Hle|[Hn|Hn]]; auto; try congruence.
    rewrite ltb_spec; unfold SFltb.
    unfold is_nan in Hcap; rewrite eqb_spec in Hcap; unfold SFeqb in Hcap.
    destruct (SFcompare (Prim2SF cap) (Prim2SF cap)) as [[]|];
      cbn in *; congruence.
  - destruct (ltb_false_leb cap x E) as [Hle|[Hn|Hn]]; auto; congruence.
Qed.

End Binary64Order.

(** C4 (as the code has it): when [calculate_speed_score] returns, the
    value is at most 120.  On binary64 (first part) this holds unless the
    value is a NaN, and the value can be minus infinity; in exact arithmetic
    (second part) it always holds, and there the value is moreover
    non-negative when the tables are those of [__init__], the base figure is
    non-negative and the recent figures are positive.  Nothing is said of
    the records on which it does not return. *)
Theorem speed_score_at_most_120 :
  (forall (self : predictor float) (h : horse float) (v : float),
      calculate_speed_score self h = Ok v ->
      PrimFloat.leb v 120 = true \/ is_nan v = true)
  /\ (forall (self : predictor R) (h : horse R) (v : R),
         calculate_speed_score self h = Ok v ->
         (v <= 120)%R
         /\ (self = init ->
             0 <= get (beyer_speed_figure h) 70 ->
             Forall (fun figure => 0 < figure)
               (get (recent_beyer_figures h) [get (beyer_speed_figure h) 70]) ->
             (0 <= v)%R)).
Proof.
  split; [|exact speed_score_real_bounds].
  intros self h v; unfold calculate_speed_score.
  match goal with
  | |- bind ?trend _ = _ -> _ => destruct trend as [trend_factor|]
  end; cbn [bind]; [|discriminate].
  intros [= <-].
  apply py_min_binary64_cap. vm_compute; reflexivity.
Qed.

Lemma speed_score_at_most_120_witness :
  (calculate_speed_score init (@form_entry float _) = Ok 82.22713414634147%float
   /\ (PrimFloat.leb 82.22713414634147 120 = true
       \/ is_nan 82.22713414634147 = true))
  /\ (exists v : R,
         calculate_speed_score init (@form_entry R _) = Ok v
         /\ (v <= 120)%R /\ (0 <= v)%R).
Proof.
  split.
  - split; [vm_compute; reflexivity|].
    apply (proj1 speed_score_at_most_120 init form_entry).
    vm_compute; reflexivity.
  - eexists; split; [reflexivity|].
    destruct (proj2 speed_score_at_most_120 init form_entry _ eq_refl)
      as [Hcap Hpos].
    split; [exact Hcap|].
    apply Hpos; [reflexivity | cbn; lia | repeat constructor].
Defined.

(** C4, the claim as stated fails, on binary64: the form's record with
    "10,0,-100" typed as the recent figures has trend [(-100 - 10) / 10 = -11],
    trend factor [-4.5] and speed score [85 * 1.0 * 0.95 * -4.5 = -363.375],
    which is negative; and with "1,0,-1e307" (an int that fits a double) the
    trend factor is about [-5e306] and the product overflows: the speed
    score is minus infinity, which is at most 120 and not finite. *)
Lemma speed_score_negative_or_infinite :
  calculate_speed_score init
    (with_recent_beyer_figures (@form_entry float _) [10; 0; -100])
  = Ok (-363.375)%float
  /\ PrimFloat.ltb (-363.375) 0 = true
  /\ ints_fit_float (@plunging_horse float _)
  /\ calculate_speed_score init (@plunging_horse float _) = Ok neg_infinity
  /\ PrimFloat.leb neg_infinity 120 = true
  /\ is_infinity neg_infinity = true.
Proof.
  split; [vm_compute; reflexivity|].
  split; [vm_compute; reflexivity|].
  split; [fits|].
  repeat split; vm_compute; reflexivity.
Qed.

(** ** The form score *)

Section FormScore.
Open Scope R_scope.

Lemma enumerate_index_nonneg {A : Type} (l : list A) (i : Z) (a : A) :
  In (i, a) (enumerate l) -> (0 <= i)%Z.
Proof.
  unfold enumerate, range; intros Hin.
  apply in_combine_l, in_map_iff in Hin.
  destruct Hin as [k [<- _]]; lia.
Qed.

Lemma enumerate_snd {A : Type} (l : list A) (i : Z) (a : A) :
  In (i, a) (enumerate l) -> In a l.
Proof. unfold enumerate; apply in_combine_r. Qed.

Lemma enumerate_nil_iff {A : Type} (l : list A) :
  enumerate l = [] <-> l = [].
Proof.
  unfold enumerate, range, len; destruct l as [|a l]; [easy|].
  rewrite Z.sub_0_r, Nat2Z.id; cbn; easy.
Qed.

(** The loop adds to its accumulators the two sums of the spec. *)
Lemma form_loop_sums (total_races : Z) (items : list (Z * Z)) :
  total_races <> 0%Z ->
  forall weighted_sum total_weight : R,
    form_loop total_races items weighted_sum total_weight
    = Ok (weighted_sum
          + rsum (map (fun item => spec_position_score (snd item)
                                   * spec_weight total_races (fst item)) items),
          total_weight
          + rsum (map (fun item => spec_weight total_races (fst item)) items)).
Proof.
  intros Hn; induction items as [|[i finish] rest IH]; intros ws tw;
    cbn [form_loop map rsum fst snd].
  - now rewrite !Rplus_0_r.
  - unfold truediv.
    destruct (Z.eqb_spec total_races 0) as [|_]; [contradiction|].
    cbn [bind Z.eqb]. rewrite IH. real_arith.
    unfold spec_position_score, spec_weight.
    rewrite plus_IZR, minus_IZR.
    do 2 f_equal; ring.
Qed.

Lemma position_score_bounds (finish : Z) :
  0 <= spec_position_score finish
  /\ ((0 <= finish)%Z -> spec_position_score finish <= 1).
Proof.
  unfold spec_position_score; split; [apply Rmax_l|].
  intros Hf; apply IZR_le in Hf.
  apply Rmax_lub; lra.
Qed.

Lemma weight_positive (total_races i : Z) :
  (0 < total_races)%Z -> (0 <= i)%Z -> 0 < spec_weight total_races i.
Proof.
  intros Hn Hi; apply IZR_lt in Hn; apply IZR_le in Hi.
  unfold spec_weight; apply Rdiv_lt_0_compat; lra.
Qed.

Lemma weighted_sums_ordered (total_races : Z) (items : list (Z * Z)) :
  (0 < total_races)%Z ->
  Forall (fun item => (0 <= fst item)%Z) items ->
  let scores := rsum (map (fun item => spec_position_score (snd item)
                                       * spec_weight total_races (fst item)) items) in
  let total := rsum (map (fun item => spec_weight total_races (fst item)) items) in
  0 <= scores
  /\ (items = [] \/ 0 < total)
  /\ (Forall (fun item => (0 <= snd item)%Z) items -> scores <= total).
Proof.
  intros Hn Hidx; induction Hidx as [|[i finish] rest Hi _ IH];
    cbn [map rsum fst snd] in *.
  - repeat split; [lra | now left | intros; lra].
  - destruct IH as [Hs [Ht Hle]].
    pose proof (weight_positive total_races i Hn Hi) as Hw.
    destruct (position_score_bounds finish) as [Hp0 Hp1].
    assert (Hrest : 0 <= rsum (map (fun item => spec_weight total_races (fst item)) rest)).
    { destruct Ht as [->|Ht]; cbn; lra. }
    repeat split.
    + apply Rplus_le_le_0_compat; [apply Rmult_le_pos|]; lra.
    + right; lra.
    + intros Hfin; inversion Hfin as [|? ? Hf Hfr]; subst; cbn [snd] in Hf.
      specialize (Hle Hfr). specialize (Hp1 Hf). nra.
Qed.

End FormScore.

(** C5 (as the code has it), in exact arithmetic: on a record whose recent
    finishes fit a double, [calculate_form_score] returns; the value is 0.5
    when there is no recent finish and otherwise the weighted average of the
    per-finish scores [max(0, (10 - finish) / 10)] with weights
    [(i + 1) / total_races], most recent first; and it lies in [[0, 1]] when
    no finish is negative.  (On a finish that does not fit, the division
    [(10 - finish) / 10] raises [OverflowError] in CPython.) *)
Theorem form_score_weighted_average :
  forall (self : predictor R) (h : horse R),
    let finishes := get (recent_finishes h) [5; 5; 5] in
    Forall fits_float finishes ->
    exists v : R,
      calculate_form_score self h = Ok v
      /\ ((finishes = [] /\ v = lit 0.5)
          \/ (0 < len finishes /\ v = spec_weighted_average finishes))
      /\ (Forall (fun finish => 0 <= finish) finishes -> (0 <= v <= 1)%R).
Proof.
  intros self h finishes _; unfold calculate_form_score; fold finishes.
  destruct (Z.eqb_spec (len finishes) 0) as [E|Hn].
  { exists (lit 0.5); split; [reflexivity|]. split.
    - left; split; [|reflexivity].
      destruct finishes; [reflexivity | unfold len in E; cbn in E; lia].
    - intros _; real_arith; lra. }
  assert (Hlen : 0 < len finishes) by (unfold len in *; lia).
  rewrite (form_loop_sums (len finishes) _ Hn); cbn [bind].
  set (items := enumerate (rev finishes)).
  assert (Hidx : Forall (fun item => 0 <= fst item) items).
  { apply Forall_forall; intros [i a] Hin; cbn [fst].
    eapply enumerate_index_nonneg; exact Hin. }
  destruct (weighted_sums_ordered (len finishes) items Hlen Hidx)
    as [Hs [Ht Hle]].
  destruct Ht as [Ht|Ht].
  { apply (proj1 (enumerate_nil_iff (rev finishes))) in Ht.
    apply (f_equal (@rev Z)) in Ht; rewrite rev_involutive in Ht; cbn in Ht.
    rewrite Ht in Hlen; cbn in Hlen; lia. }
  real_arith. rewrite !Rplus_0_l.
  assert (Hpos : Exact.ltb 0 (rsum (map (fun item => spec_weight (len finishes) (fst item)) items)) = true)
    by (apply ltb_true; exact Ht).
  rewrite Hpos.
  eexists; split; [reflexivity|]. split.
  - right; split; [assumption | reflexivity].
  - intros Hfin.
    assert (Hfin' : Forall (fun item => 0 <= snd item) items).
    { apply Forall_forall; intros [i a] Hin; cbn [snd].
      apply enumerate_snd, in_rev in Hin.
      rewrite Forall_forall in Hfin; auto. }
    specialize (Hle Hfin').
    split.
    + apply Rmult_le_pos; [lra | left; apply Rinv_0_lt_compat; lra].
    + apply Rmult_le_reg_r with (r := rsum (map (fun item => spec_weight (len finishes) (fst item)) items));
        [exact Ht|].
      unfold Rdiv; rewrite Rmult_assoc, Rinv_l by lra. lra.
Qed.

Lemma form_score_weighted_average_witness :
  Forall fits_float [2; 1; 3]
  /\ Forall (fun finish => 0 <= finish) [2; 1; 3]
  /\ exists v : R,
       calculate_form_score init (@form_entry R _) = Ok v
       /\ v = spec_weighted_average [2; 1; 3]
       /\ (0 <= v <= 1)%R.
Proof.
  assert (Hfit : Forall fits_float [2; 1; 3]) by fits.
  split; [exact Hfit|].
  split; [repeat constructor; lia|].
  destruct (form_score_weighted_average init form_entry Hfit)
    as [v [Hv [Hcase Hb]]].
  exists v; split; [exact Hv|]. split.
  - destruct Hcase as [[E _]|[_ E]]; [discriminate E | exact E].
  - apply Hb; repeat constructor; lia.
Defined.

(** C5, the claim as stated fails: a negative entry among the finishes
    scores above 1.  With "2,1,-10" typed as the recent finishes the scores
    are 2.0, 0.9, 0.8 (most recent first), the weights 1/3, 2/3, 1, and the
    form score is 1.0333..., outside [[0, 1]]. *)
Lemma form_score_can_exceed_one :
  calculate_form_score init
    (with_recent_finishes (@form_entry float _) [2; 1; -10])
  = Ok 1.0333333333333332%float
  /\ PrimFloat.ltb 1 1.0333333333333332 = true.
Proof. split; vm_compute; reflexivity. Qed.

(** ** Rounding and sums in exact arithmetic *)

Section Rounding.
Open Scope R_scope.
Import ExactLib.

Lemma Rabs_le_inv (x y : R) : Rabs x <= y -> - y <= x <= y.
Proof. unfold Rabs; destruct (Rcase_abs x); lra. Qed.

Lemma rint_error (x : R) : Rabs (IZR (rint x) - x) <= 1 / 2.
Proof.
  unfold rint.
  destruct (base_Int_part x) as [Hlo Hhi].
  set (n := Int_part x) in *.
  destruct (Rlt_dec (x - IZR n) (1 / 2)) as [H1|H1].
  { apply Rabs_le; lra. }
  destruct (Rlt_dec (1 / 2) (x - IZR n)) as [H2|H2].
  { rewrite plus_IZR; apply Rabs_le; lra. }
  destruct (Z.even n); [|rewrite plus_IZR]; apply Rabs_le; lra.
Qed.






Lemma fold_left_Rplus (l : list R) (a : R) : fold_left Rplus l a = a + rsum l.
Proof.
  revert a; induction l as [|x l IH]; intros a; cbn [fold_left rsum];
    [|rewrite IH]; ring.
Qed.

Lemma sum_rsum (l : list R) : sum l = rsum l.
Proof. unfold sum; rewrite fold_left_Rplus; ring. Qed.

Lemma py_sum_rsum (l : list R) : py_sum l = rsum l.
Proof.
  unfold py_sum; cbn [fadd of_int real_num]; rewrite fold_left_Rplus; ring.
Qed.

Lemma rsum_Permutation (l l' : list R) : Permutation l l' -> rsum l = rsum l'.
Proof. induction 1; cbn [rsum]; lra. Qed.




End Rounding.

(** ** The structure of [predict_race] *)

Section RaceStructure.
Context {F : Type} `{PyNum F} `{PyLib F}.
Variable sort_values_desc : dataframe F -> dataframe F.

Lemma comprehension_Forall2 {A B : Type} (f : A -> result B) (l : list A)
    (ys : list B) :
  comprehension f l = Ok ys <-> Forall2 (fun x y => f x = Ok y) l ys.
Proof.
  revert ys; induction l as [|a l IH]; intros ys; cbn [comprehension].
  - split; [intros [= <-]; constructor | intros Hf; inversion Hf; reflexivity].
  - split.
    + destruct (f a) as [b|] eqn:Hb; cbn [bind]; [|discriminate].
      destruct (comprehension f l) as [bs|] eqn:Hbs; cbn [bind]; [|discriminate].
      intros [= <-]; constructor; [assumption | now apply IH].
    + intros Hf; inversion Hf as [|? y ? ys' Hy Hys]; subst.
      rewrite Hy; cbn [bind].
      apply IH in Hys; rewrite Hys; reflexivity.
Qed.

Lemma result_row_inv (self : predictor F) (horses_data : list (horse F))
    (h : horse F) (r : row F) :
  result_row self horses_data h = Ok r ->
  exists score all_scores,
    calculate_overall_score self h = Ok score
    /\ comprehension (calculate_overall_score self) horses_data = Ok all_scores
    /\ Horse r = get (name h) "Unknown"
    /\ Score r = py_round score 2
    /\ Win_Probability r = np_round (fmul (share all_scores score) (of_int 100)) 1.
Proof.
  unfold result_row, score_to_probability.
  destruct (calculate_overall_score self h) as [score|]; cbn [bind]; [|discriminate].
  destruct (comprehension _ horses_data) as [all_scores|]; cbn [bind]; [|discriminate].
  destruct (calculate_speed_score self h); cbn [bind]; [|discriminate].
  destruct (calculate_form_score self h); cbn [bind]; [|discriminate].
  intros [= <-]. exists score, all_scores. repeat split; reflexivity.
Qed.

Lemma set_Win_Probability_same (r : row F) :
  set_Win_Probability r (Win_Probability r) = r.
Proof. destruct r; reflexivity. Qed.

(** [predict_race] returns the sorted table, reweighed. *)
Lemma predict_race_inv (self : predictor F) (horses_data : list (horse F))
    (df : dataframe F) :
  predict_race sort_values_desc self horses_data = Ok df ->
  exists results,
    comprehension (result_row self horses_data) horses_data = Ok results
    /\ results <> []
    /\ let results_df := sort_values_desc (enumerate results) in
       let total_prob :=
         series_sum (map (fun ir => Win_Probability (snd ir)) results_df) in
       df = map (reweigh total_prob) results_df.
Proof.
  unfold predict_race.
  destruct (comprehension _ horses_data) as [results|]; cbn [bind]; [|discriminate].
  destruct results as [|r results]; [discriminate|].
  intros Hdf; exists (r :: results); split; [reflexivity|].
  split; [discriminate|].
  cbv zeta; unfold reweigh, renormalized.
  destruct (flt (of_int 0) _); injection Hdf as <-; [reflexivity|].
  rewrite <- (map_id (sort_values_desc _)) at 1.
  apply map_ext; intros [i row]; cbn [fst snd].
  now rewrite set_Win_Probability_same.
Qed.

Lemma predict_race_returns (self : predictor F) (horses_data : list (horse F))
    (results : list (row F)) :
  comprehension (result_row self horses_data) horses_data = Ok results ->
  results <> [] ->
  exists df, predict_race sort_values_desc self horses_data = Ok df.
Proof.
  intros Hr Hne; unfold predict_race; rewrite Hr; cbn [bind].
  destruct results; [contradiction|].
  destruct (flt _ _); eexists; reflexivity.
Qed.

End RaceStructure.

(** The labels of [enumerate] are the positions. *)
Lemma combine_range_In {A : Type} (l : list A) (a : Z) (s : nat) (i : Z) (x : A) :
  In (i, x) (combine (map (fun k => a + Z.of_nat k) (List.seq s (List.length l))) l) ->
  exists k, i = a + Z.of_nat (s + k) /\ nth_error l k = Some x.
Proof.
  revert s; induction l as [|y l IH]; intros s; cbn [List.length List.seq map combine].
  - intros [].
  - intros [[= <- <-]|Hin].
    + exists 0%nat; split; [f_equal; lia | reflexivity].
    + destruct (IH (S s) Hin) as [k [-> Hk]].
      exists (S k); split; [f_equal; lia | exact Hk].
Qed.

Lemma enumerate_In {A : Type} (l : list A) (i : Z) (x : A) :
  In (i, x) (enumerate l) -> 0 <= i /\ nth_error l (Z.to_nat i) = Some x.
Proof.
  unfold enumerate, range, len; rewrite Z.sub_0_r, Nat2Z.id; intros Hin.
  destruct (combine_range_In l 0 0 i x Hin) as [k [-> Hk]].
  split; [lia|]. now rewrite Z.add_0_l, Nat.add_0_l, Nat2Z.id.
Qed.

Lemma map_fst_combine {A B : Type} (l : list A) (l' : list B) :
  List.length l = List.length l' -> map fst (combine l l') = l.
Proof.
  revert l'; induction l as [|a l IH]; intros [|b l']; cbn; try easy.
  intros [= E]; now rewrite IH.
Qed.

Lemma map_snd_combine {A B : Type} (l : list A) (l' : list B) :
  List.length l = List.length l' -> map snd (combine l l') = l'.
Proof.
  revert l'; induction l as [|a l IH]; intros [|b l']; cbn; try easy.
  intros [= E]; now rewrite IH.
Qed.

Lemma enumerate_fst {A : Type} (l : list A) :
  map fst (enumerate l) = range 0 (len l).
Proof.
  unfold enumerate. apply map_fst_combine.
  unfold range, len. rewrite length_map, length_seq, Z.sub_0_r, Nat2Z.id.
  reflexivity.
Qed.

Lemma enumerate_snd_map {A : Type} (l : list A) :
  map snd (enumerate l) = l.
Proof.
  unfold enumerate. apply map_snd_combine.
  unfold range, len. rewrite length_map, length_seq, Z.sub_0_r, Nat2Z.id.
  reflexivity.
Qed.

(** ** Ranking *)

Section Ranking.
Open Scope R_scope.

Lemma insert_desc_Permutation (x : Z * row R) (df : dataframe R) :
  Permutation (insert_desc x df) (x :: df).
Proof.
  induction df as [|y df IH]; cbn [insert_desc]; [reflexivity|].
  destruct (Exact.ltb _ _); [reflexivity|].
  rewrite IH; apply perm_swap.
Qed.

Lemma insertion_sort_desc_Permutation (df : dataframe R) :
  Permutation (insertion_sort_desc df) df.
Proof.
  induction df as [|x df IH]; cbn [insertion_sort_desc fold_right]; [reflexivity|].
  fold (insertion_sort_desc df).
  rewrite insert_desc_Permutation; now constructor.
Qed.

Lemma insert_desc_Sorted (x : Z * row R) (df : dataframe R) :
  descending_by_score df -> descending_by_score (insert_desc x df).
Proof.
  unfold descending_by_score.
  induction df as [|y df IH]; cbn [insert_desc]; intros Hs.
  - repeat constructor.
  - destruct (Exact.ltb (Score (snd y)) (Score (snd x))) eqn:E.
    + apply ltb_true in E. constructor; [assumption|]. constructor; lra.
    + assert (Hxy : Score (snd x) <= Score (snd y)).
      { destruct (Rle_dec (Score (snd x)) (Score (snd y))) as [|Hn]; [assumption|].
        assert (Hlt : Exact.ltb (Score (snd y)) (Score (snd x)) = true)
          by (apply ltb_true; lra).
        congruence. }
      inversion Hs as [|? ? Hs' Hhd]; subst.
      constructor; [apply IH; assumption|].
      destruct df as [|z df]; cbn [insert_desc].
      * constructor; assumption.
      * destruct (Exact.ltb (Score (snd z)) (Score (snd x)));
          constructor; [assumption | now inversion Hhd].
Qed.

Lemma insertion_sort_desc_contract : sort_values_contract insertion_sort_desc.
Proof.
  intros df; split; [apply insertion_sort_desc_Permutation|].
  induction df as [|x df IH]; cbn [insertion_sort_desc fold_right].
  - constructor.
  - apply insert_desc_Sorted; exact IH.
Qed.

Lemma Forall2_nth_error_r {A B : Type} (P : A -> B -> Prop) (l : list A)
    (l' : list B) (k : nat) (y : B) :
  Forall2 P l l' -> nth_error l' k = Some y ->
  exists x, nth_error l k = Some x /\ P x y.
Proof.
  intros Hf; revert k; induction Hf as [|a b l l' Hab _ IH]; intros k.
  - destruct k; discriminate.
  - destruct k as [|k]; cbn [nth_error].
    + intros [= <-]; now exists a.
    + apply IH.
Qed.

Lemma reweigh_Score (total_prob : R) (ir : Z * row R) :
  Score (snd (reweigh total_prob ir)) = Score (snd ir).
Proof. reflexivity. Qed.

Lemma descending_reweigh (total_prob : R) (df : dataframe R) :
  descending_by_score df -> descending_by_score (map (reweigh total_prob) df).
Proof.
  unfold descending_by_score.
  induction 1 as [|a l Hs IH Hhd]; cbn [map]; constructor; [assumption|].
  destruct Hhd; cbn [map]; constructor. now rewrite !reweigh_Score.
Qed.

End Ranking.


(** ** Win probabilities *)

Section Probabilities.
Open Scope R_scope.
Import ExactLib.

Lemma share_real (scores : list R) (s : R) : share scores s = spec_softmax scores s.
Proof.
  unfold share, spec_softmax; rewrite py_sum_rsum. reflexivity.
Qed.

Lemma rows_first_round_aux (self : predictor R) (hs hs' : list (horse R))
    (results : list (row R)) (scores : list R) :
  comprehension (calculate_overall_score self) hs = Ok scores ->
  Forall2 (fun h r => result_row self hs h = Ok r) hs' results ->
  exists scores',
    Forall2 (fun h s => calculate_overall_score self h = Ok s) hs' scores'
    /\ map (@Win_Probability R) results
       = map (fun s => round (spec_softmax scores s * 100) 1) scores'.
Proof.
  intros Hall; induction 1 as [|h r hs' results Hr _ IH].
  - exists []; split; [constructor | reflexivity].
  - destruct IH as [scores' [Hs' Hmap]].
    apply result_row_inv in Hr.
    destruct Hr as [score [all_scores [Hs [Hall' [_ [_ Hwp]]]]]].
    rewrite Hall in Hall'; injection Hall' as <-.
    exists (score :: scores'); split; [now constructor|].
    cbn [map]; rewrite Hmap, Hwp, share_real. reflexivity.
Qed.

(** The Win_Probability column of [results] is the first round of the
    spec, in input order. *)
Lemma rows_first_round (self : predictor R) (hs : list (horse R))
    (results : list (row R)) :
  comprehension (result_row self hs) hs = Ok results ->
  exists scores,
    comprehension (calculate_overall_score self) hs = Ok scores
    /\ map (@Win_Probability R) results = spec_first_round scores.
Proof.
  intros Hres; apply comprehension_Forall2 in Hres.
  assert (Hall : exists scores,
             comprehension (calculate_overall_score self) hs = Ok scores).
  { destruct hs as [|h hs']; [exists []; reflexivity|].
    inversion Hres as [|? r ? results' Hr _]; subst.
    apply result_row_inv in Hr.
    destruct Hr as [_ [all_scores [_ [Hall _]]]]. now exists all_scores. }
  destruct Hall as [scores Hall].
  destruct (rows_first_round_aux self hs hs results scores Hall Hres)
    as [scores' [Hs' Hmap]].
  apply comprehension_Forall2 in Hs'.
  rewrite Hall in Hs'; injection Hs' as <-.
  exists scores; split; [assumption | exact Hmap].
Qed.

Lemma renormalized_real (total p : R) :
  (0 < total /\ renormalized total p = round (p / total * 100) 1)
  \/ (total <= 0 /\ renormalized total p = p).
Proof.
  unfold renormalized; cbn [flt fmul fdiv of_int np_round real_num real_lib].
  unfold Exact.ltb; destruct (Rlt_dec 0 total); [left | right]; split;
    try reflexivity; lra.
Qed.

(** Sorting permutes the Win_Probability column. *)
Lemma sorted_column (sort_values_desc : dataframe R -> dataframe R)
    (results : list (row R)) :
  (forall table, Permutation (sort_values_desc table) table) ->
  Permutation
    (map (fun ir : Z * row R => Win_Probability (snd ir))
         (sort_values_desc (enumerate results)))
    (map (@Win_Probability R) results).
Proof.
  intros Hperm.
  rewrite <- (enumerate_snd_map results) at 2.
  rewrite map_map. apply Permutation_map, Hperm.
Qed.


End Probabilities.

Section PositiveTotal.
Open Scope R_scope.
Import ExactLib.


Lemma exp_sum_positive (scores : list R) :
  scores <> [] -> 0 < rsum (map (fun t => exp (t / 10)) scores).
Proof.
  induction scores as [|s scores IH]; [contradiction|]; intros _.
  cbn [map rsum]. pose proof (exp_pos (s / 10)) as He.
  destruct scores as [|s' scores]; [cbn; lra|].
  assert (0 < rsum (map (fun t => exp (t / 10)) (s' :: scores)))
    by (apply IH; discriminate).
  lra.
Qed.






End PositiveTotal.

Section Column.
Open Scope R_scope.

(** The table returned is the sorted table of [results], reweighed by the
    total of the first round. *)
Lemma predict_race_first_round
    (sort_values_desc : dataframe R -> dataframe R) (self : predictor R)
    (horses_data : list (horse R)) (df : dataframe R) :
  (forall table, Permutation (sort_values_desc table) table) ->
  predict_race sort_values_desc self horses_data = Ok df ->
  exists (results : list (row R)) (scores : list R),
    comprehension (calculate_overall_score self) horses_data = Ok scores
    /\ scores <> []
    /\ List.length results = List.length horses_data
    /\ List.length scores = List.length horses_data
    /\ map (@Win_Probability R) results = spec_first_round scores
    /\ df = map (reweigh (rsum (spec_first_round scores)))
                (sort_values_desc (enumerate results)).
Proof.
  intros Hperm Hdf.
  apply predict_race_inv in Hdf; destruct Hdf as [results [Hres [Hne Hdf]]].
  cbv zeta in Hdf.
  destruct (rows_first_round self horses_data results Hres)
    as [scores [Hall Hmap]].
  pose proof (proj1 (comprehension_Forall2 _ _ _) Hres) as Hrows.
  pose proof (proj1 (comprehension_Forall2 _ _ _) Hall) as Hscores.
  apply Forall2_length in Hrows, Hscores.
  assert (Htotal : series_sum
                     (map (fun ir : Z * row R => Win_Probability (snd ir))
                          (sort_values_desc (enumerate results)))
                   = rsum (spec_first_round scores)).
  { cbn [series_sum real_lib]; rewrite sum_rsum.
    apply rsum_Permutation.
    rewrite <- Hmap. apply sorted_column, Hperm. }
  rewrite Htotal in Hdf.
  exists results, scores; repeat split; try congruence.
  intros ->. destruct horses_data; [|discriminate].
  destruct results; [contradiction | discriminate].
Qed.


End Column.


Section SixAlike.
Open Scope R_scope.
Import ExactLib.




End SixAlike.


(** * Further properties of the engine *)

(** ** Which recent figures the speed score reads *)

Lemma getitem_last_three {A : Type} (older : list A) (c b a : A) :
  3 <= len (older ++ [c; b; a])
  /\ getitem (older ++ [c; b; a]) (-1) = Ok a
  /\ getitem (older ++ [c; b; a]) (-3) = Ok c.
Proof.
  unfold getitem, len; rewrite length_app; cbn [List.length].
  split; [lia|].
  replace (Z.of_nat (List.length older + 3) + -1)
    with (Z.of_nat (List.length older + 2)) by lia.
  replace (Z.of_nat (List.length older + 3) + -3)
    with (Z.of_nat (List.length older)) by lia.
  cbn [Z.ltb Z.compare].
  destruct (Z.ltb_spec (Z.of_nat (List.length older + 2)) 0); [lia|].
  destruct (Z.ltb_spec (Z.of_nat (List.length older)) 0); [lia|].
  rewrite !Nat2Z.id.
  rewrite !nth_error_app2 by lia.
  replace (List.length older + 2 - List.length older)%nat with 2%nat by lia.
  rewrite Nat.sub_diag. split; reflexivity.
Qed.

(** X1: of three or more recent figures the speed score reads the last and
    the third from last only: the one in between and all older ones can be
    changed, added or removed without changing the score or the exception. *)
Theorem speed_score_reads_two_figures :
  forall (F : Type) (N : PyNum F) (self : predictor F) (h : horse F)
         (older older' : list Z) (third middle middle' latest : Z),
    calculate_speed_score self
      (with_recent_beyer_figures h (older ++ [third; middle; latest]))
    = calculate_speed_score self
        (with_recent_beyer_figures h (older' ++ [third; middle'; latest])).
Proof.
  intros F N self h older older' c b b' a.
  unfold calculate_speed_score; cbn [with_recent_beyer_figures
    recent_beyer_figures beyer_speed_figure track_condition race_distance get].
  destruct (getitem_last_three older c b a) as [Hlen [Ha Hc]].
  destruct (getitem_last_three older' c b' a) as [Hlen' [Ha' Hc']].
  rewrite Ha, Hc, Ha', Hc'.
  destruct (Z.leb_spec 3 (len (older ++ [c; b; a]))); [|lia].
  destruct (Z.leb_spec 3 (len (older' ++ [c; b'; a]))); [|lia].
  reflexivity.
Qed.

(** ** When [predict_race] returns *)

(** As above, the lemmas of this section hold of the code on the records
    whose ints fit a double. *)

Section Outcome.
Context {F : Type} `{PyNum F} `{PyLib F}.
Variable sort_values_desc : dataframe F -> dataframe F.

Lemma speed_score_outcome (self : predictor F) (h : horse F) :
  (trend_divides_by_zero h = true
   /\ calculate_speed_score self h = Raise ZeroDivisionError)
  \/ (trend_divides_by_zero h = false
      /\ exists v, calculate_speed_score self h = Ok v).
Proof.
  unfold trend_divides_by_zero, calculate_speed_score.
  set (figures := get (recent_beyer_figures h) _).
  destruct (Z.leb_spec 3 (len figures)) as [Hlen|_]; cbn [andb].
  - destruct (getitem_in_range figures (-1)) as [a Ha]; [lia|].
    destruct (getitem_in_range figures (-3)) as [c Hc]; [lia|].
    rewrite Ha, Hc; cbn [bind]; unfold truediv.
    destruct (Z.eqb_spec c 0) as [->|Hc0]; cbn [bind].
    + left; split; reflexivity.
    + right; split; [destruct c; congruence | eexists; reflexivity].
  - right; split; [reflexivity | eexists; reflexivity].
Qed.

Lemma overall_score_outcome (h : horse F) :
  (trend_divides_by_zero h = true
   /\ calculate_overall_score init h = Raise ZeroDivisionError)
  \/ (trend_divides_by_zero h = false
      /\ exists v, calculate_overall_score init h = Ok v).
Proof.
  unfold calculate_overall_score.
  destruct (speed_score_outcome init h) as [[Hz ->]|[Hz [s ->]]];
    [left; split; [assumption | reflexivity]|].
  destruct (form_score_returns init h) as [f ->]; cbn [bind].
  destruct (calculate_connection_score init h) as [jockey trainer].
  right; split; [assumption | eexists; reflexivity].
Qed.

Lemma all_scores_outcome (hs : list (horse F)) :
  (existsb trend_divides_by_zero hs = true
   /\ comprehension (calculate_overall_score init) hs = Raise ZeroDivisionError)
  \/ (existsb trend_divides_by_zero hs = false
      /\ exists scores, comprehension (calculate_overall_score init) hs = Ok scores).
Proof.
  induction hs as [|h hs IH]; cbn [existsb comprehension].
  - right; split; [reflexivity | eexists; reflexivity].
  - destruct (overall_score_outcome h) as [[-> ->]|[-> [s ->]]]; cbn [orb bind].
    + left; split; reflexivity.
    + destruct IH as [[-> ->]|[-> [scores ->]]]; cbn [bind].
      * left; split; reflexivity.
      * right; split; [reflexivity | eexists; reflexivity].
Qed.

Lemma result_row_outcome (hs : list (horse F)) (h : horse F) :
  (existsb trend_divides_by_zero (h :: hs) = true
   /\ result_row init hs h = Raise ZeroDivisionError)
  \/ (existsb trend_divides_by_zero (h :: hs) = false
      /\ exists r, result_row init hs h = Ok r).
Proof.
  unfold result_row, score_to_probability; cbn [existsb].
  destruct (overall_score_outcome h) as [[-> ->]|[Hz [s ->]]]; cbn [orb bind];
    [left; split; reflexivity|].
  rewrite Hz; cbn [orb].
  destruct (all_scores_outcome hs) as [[-> ->]|[-> [scores ->]]]; cbn [bind];
    [left; split; reflexivity|].
  destruct (speed_score_outcome init h) as [[Hz' _]|[_ [b ->]]]; [congruence|].
  destruct (form_score_returns init h) as [f ->]; cbn [bind].
  right; split; [reflexivity | eexists; reflexivity].
Qed.

Lemma results_outcome (hs part : list (horse F)) :
  incl part hs ->
  (existsb trend_divides_by_zero hs = true
   /\ (part = [] \/ comprehension (result_row init hs) part = Raise ZeroDivisionError))
  \/ (existsb trend_divides_by_zero hs = false
      /\ exists results,
           comprehension (result_row init hs) part = Ok results
           /\ List.length results = List.length part).
Proof.
  intros Hincl.
  destruct (existsb trend_divides_by_zero hs) eqn:Hbad.
  - left; split; [reflexivity|].
    destruct part as [|h part]; [now left | right].
    cbn [comprehension].
    destruct (result_row_outcome hs h) as [[_ ->]|[Hgood _]]; [reflexivity|].
    cbn [existsb] in Hgood; apply orb_false_elim in Hgood; destruct Hgood; congruence.
  - right; split; [reflexivity|].
    induction part as [|h part IH]; [exists []; split; reflexivity|].
    destruct IH as [results [Hr Hlen]]; [intros x Hx; apply Hincl; now right|].
    cbn [comprehension].
    destruct (result_row_outcome hs h) as [[Hz _]|[_ [r ->]]].
    + cbn [existsb] in Hz; rewrite Hbad, orb_false_r in Hz.
      assert (Hex : existsb trend_divides_by_zero hs = true).
      { apply existsb_exists; exists h; split; [apply Hincl; now left | exact Hz]. }
      congruence.
    + cbn [bind]; rewrite Hr; cbn [bind].
      exists (r :: results); split; [reflexivity | cbn; congruence].
Qed.

End Outcome.

(** X2: with the weights of [__init__], on records whose ints fit a
    double, [predict_race] raises [KeyError('Score')] on the empty list; on
    a non-empty list it raises [ZeroDivisionError] as soon as one horse,
    whichever, has a zero third-from-last figure among three or more; and it
    returns a table in every other case.  (An int that does not fit makes
    CPython raise [OverflowError].) *)
Theorem predict_race_outcome :
  forall (F : Type) (N : PyNum F) (L : PyLib F)
         (sort_values_desc : dataframe F -> dataframe F)
         (horses_data : list (horse F)),
    Forall ints_fit_float horses_data ->
    (horses_data = []
     /\ predict_race sort_values_desc init horses_data = Raise (KeyError "Score"))
    \/ (horses_data <> []
        /\ existsb trend_divides_by_zero horses_data = true
        /\ predict_race sort_values_desc init horses_data = Raise ZeroDivisionError)
    \/ (horses_data <> []
        /\ existsb trend_divides_by_zero horses_data = false
        /\ exists df, predict_race sort_values_desc init horses_data = Ok df).
Proof.
  intros F N L sort hs _.
  destruct hs as [|h hs]; [left; split; reflexivity|].
  right.
  destruct (results_outcome (h :: hs) (h :: hs) (incl_refl _))
    as [[Hbad [Hnil|Hraise]]|[Hgood [results [Hres Hlen]]]].
  - discriminate Hnil.
  - left; split; [discriminate|]. split; [exact Hbad|].
    unfold predict_race; rewrite Hraise; reflexivity.
  - right; split; [discriminate|]. split; [exact Hgood|].
    apply (predict_race_returns sort init (h :: hs) results Hres).
    intros ->; discriminate Hlen.
Qed.

Lemma predict_race_outcome_witness :
  Forall ints_fit_float [@form_entry R _; zero_third_horse]
  /\ predict_race insertion_sort_desc init [@form_entry R _; zero_third_horse]
     = Raise ZeroDivisionError.
Proof.
  assert (Hfit : Forall ints_fit_float [@form_entry R _; zero_third_horse])
    by fits.
  split; [exact Hfit|].
  destruct (predict_race_outcome R real_num real_lib insertion_sort_desc
              [form_entry; zero_third_horse] Hfit)
    as [[Hnil _]|[[_ [_ Hraise]]|[_ [Hgood _]]]].
  - discriminate Hnil.
  - exact Hraise.
  - discriminate Hgood.
Defined.

(** ** Ranges of the sub-scores and of the composite score *)

Section ScoreRanges.
Open Scope R_scope.

Lemma connection_score_real (self : predictor R) (h : horse R) :
  let jockey_win_pct := get (jockey_win_percentage h) (lit 0.10) in
  let trainer_win_pct := get (trainer_win_percentage h) (lit 0.12) in
  let combo_success := get (jockey_trainer_combo_win_pct h) (lit 0.10) in
  calculate_connection_score self h
  = (Rmin (jockey_win_pct / (25 / 100)) 1 + Rmin (combo_success / (30 / 100)) (2 / 10) * (5 / 10),
     Rmin (trainer_win_pct / (25 / 100)) 1 + Rmin (combo_success / (30 / 100)) (2 / 10) * (5 / 10)).
Proof.
  cbv zeta; unfold calculate_connection_score; real_arith.
  replace (10 / 10) with 1 by lra. reflexivity.
Qed.

Lemma class_score_real (self : predictor R) (h : horse R) :
  8 / 10 <= calculate_class_score self h <= 12 / 10.
Proof.
  unfold calculate_class_score.
  destruct (_ >? _)%Z; [real_arith; lra|].
  destruct (_ =? _)%Z; real_arith; lra.
Qed.

Lemma post_position_score_real (h : horse R) :
  5 / 10 <= calculate_post_position_score init h <= 125 / 100.
Proof.
  unfold calculate_post_position_score.
  destruct (_ <=? 6)%Z; [real_arith; lra|].
  destruct (_ <=? 10)%Z.
  - unfold zget; cbn [post_position_weights init lookup].
    repeat match goal with
           | |- context [Z.eqb ?k ?p] => destruct (Z.eqb k p)
           end; cbn [get]; real_arith; lra.
  - rewrite large_field_weights_get.
    set (post := get (post_position h) 5%Z).
    destruct (Z.leb_spec 1 post) as [H1|H1]; cbn [andb]; [|real_arith; lra].
    destruct (Z.ltb_spec post 21) as [H21|H21]; [|real_arith; lra].
    real_arith. rewrite minus_IZR.
    apply IZR_le in H1.
    split; [apply Rmax_l|]. apply Rmax_lub; lra.
Qed.

(** The form score is never negative, and at most 1 when no finish is
    negative. *)
Lemma form_score_real_bounds (self : predictor R) (h : horse R) :
  exists v : R,
    calculate_form_score self h = Ok v
    /\ 0 <= v
    /\ (Forall (fun finish => (0 <= finish)%Z)
               (get (recent_finishes h) [5; 5; 5]%Z) -> v <= 1)
    /\ ((0 < len (get (recent_finishes h) [5; 5; 5]%Z))%Z ->
        v = spec_weighted_average (get (recent_finishes h) [5; 5; 5]%Z)).
Proof.
  unfold calculate_form_score.
  set (finishes := get (recent_finishes h) [5; 5; 5]%Z).
  destruct (Z.eqb_spec (len finishes) 0) as [E|Hn].
  { exists (lit 0.5); split; [reflexivity|].
    repeat split; try (intros _; real_arith; lra); [real_arith; lra | lia]. }
  assert (Hlen : (0 < len finishes)%Z) by (unfold len in *; lia).
  rewrite (form_loop_sums (len finishes) _ Hn); cbn [bind].
  set (items := enumerate (rev finishes)).
  assert (Hidx : Forall (fun item => (0 <= fst item)%Z) items).
  { apply Forall_forall; intros [i a] Hin; cbn [fst].
    eapply enumerate_index_nonneg; exact Hin. }
  destruct (weighted_sums_ordered (len finishes) items Hlen Hidx)
    as [Hs [Ht Hle]].
  destruct Ht as [Ht|Ht].
  { apply (proj1 (enumerate_nil_iff (rev finishes))) in Ht.
    apply (f_equal (@rev Z)) in Ht; rewrite rev_involutive in Ht; cbn in Ht.
    rewrite Ht in Hlen; cbn in Hlen; lia. }
  real_arith. rewrite !Rplus_0_l.
  rewrite (proj2 (ltb_true 0 _) Ht).
  eexists; split; [reflexivity|].
  split; [|split].
  - apply Rmult_le_pos; [lra | left; apply Rinv_0_lt_compat; lra].
  - intros Hfin.
    assert (Hfin' : Forall (fun item => (0 <= snd item)%Z) items).
    { apply Forall_forall; intros [i a] Hin; cbn [snd].
      apply enumerate_snd, in_rev in Hin.
      rewrite Forall_forall in Hfin; auto. }
    specialize (Hle Hfin').
    apply Rmult_le_reg_r
      with (r := rsum (map (fun item => spec_weight (len finishes) (fst item)) items));
      [exact Ht|].
    unfold Rdiv; rewrite Rmult_assoc, Rinv_l by lra. lra.
  - intros _; reflexivity.
Qed.

Lemma connection_scores_bounds_aux (h : horse R) :
  fst (calculate_connection_score init h) <= 11 / 10
  /\ snd (calculate_connection_score init h) <= 11 / 10
  /\ (0 <= get (jockey_win_percentage h) (lit 0.10) ->
      0 <= get (trainer_win_percentage h) (lit 0.12) ->
      0 <= get (jockey_trainer_combo_win_pct h) (lit 0.10) ->
      0 <= fst (calculate_connection_score init h)
      /\ 0 <= snd (calculate_connection_score init h)).
Proof.
  rewrite (connection_score_real init h); cbn [fst snd].
  set (j := get (jockey_win_percentage h) (lit 0.10)).
  set (t := get (trainer_win_percentage h) (lit 0.12)).
  set (c := get (jockey_trainer_combo_win_pct h) (lit 0.10)).
  pose proof (Rmin_r (j / (25 / 100)) 1).
  pose proof (Rmin_r (t / (25 / 100)) 1).
  pose proof (Rmin_r (c / (30 / 100)) (2 / 10)).
  split; [lra|]. split; [lra|].
  intros Hj Ht Hc.
  assert (0 <= Rmin (j / (25 / 100)) 1)
    by (apply Rmin_glb; [apply Rmult_le_pos|]; lra).
  assert (0 <= Rmin (t / (25 / 100)) 1)
    by (apply Rmin_glb; [apply Rmult_le_pos|]; lra).
  assert (0 <= Rmin (c / (30 / 100)) (2 / 10))
    by (apply Rmin_glb; [apply Rmult_le_pos|]; lra).
  lra.
Qed.



End ScoreRanges.



(** X3: in exact arithmetic the jockey and trainer scores never exceed 1.1
    (a rate capped at 1.0 plus half of a bonus capped at 0.2); they differ
    by the difference of the two capped rates only, the combo bonus being
    added to both; and they are non-negative when the three rates are. *)
Theorem connection_scores_at_most_1_1 :
  forall (self : predictor R) (h : horse R),
    let jockey_win_pct := get (jockey_win_percentage h) (lit 0.10) in
    let trainer_win_pct := get (trainer_win_percentage h) (lit 0.12) in
    let combo_success := get (jockey_trainer_combo_win_pct h) (lit 0.10) in
    let jockey_score := fst (calculate_connection_score self h) in
    let trainer_score := snd (calculate_connection_score self h) in
    (jockey_score <= 11 / 10)%R /\ (trainer_score <= 11 / 10)%R
    /\ (jockey_score - trainer_score
        = Rmin (jockey_win_pct / lit 0.25) 1 - Rmin (trainer_win_pct / lit 0.25) 1)%R
    /\ ((0 <= jockey_win_pct)%R -> (0 <= trainer_win_pct)%R ->
        (0 <= combo_success)%R ->
        (0 <= jockey_score)%R /\ (0 <= trainer_score)%R).
Proof.
  intros self h j t c jockey_score trainer_score.
  subst jockey_score trainer_score.
  rewrite (connection_score_real self h); cbn [fst snd]; fold j t c.
  pose proof (Rmin_r (j / (25 / 100)) 1).
  pose proof (Rmin_r (t / (25 / 100)) 1).
  pose proof (Rmin_r (c / (30 / 100)) (2 / 10)).
  repeat split; try lra.
  - real_arith; lra.
  - assert (0 <= Rmin (j / (25 / 100)) 1)%R
      by (apply Rmin_glb; [apply Rmult_le_pos|]; lra).
    assert (0 <= Rmin (c / (30 / 100)) (2 / 10))%R
      by (apply Rmin_glb; [apply Rmult_le_pos|]; lra).
    lra.
  - assert (0 <= Rmin (t / (25 / 100)) 1)%R
      by (apply Rmin_glb; [apply Rmult_le_pos|]; lra).
    assert (0 <= Rmin (c / (30 / 100)) (2 / 10))%R
      by (apply Rmin_glb; [apply Rmult_le_pos|]; lra).
    lra.
Qed.

Lemma connection_scores_at_most_1_1_witness :
  (0 <= get (jockey_win_percentage (@form_entry R _)) (lit 0.10))%R
  /\ (0 <= get (trainer_win_percentage (@form_entry R _)) (lit 0.12))%R
  /\ (0 <= get (jockey_trainer_combo_win_pct (@form_entry R _)) (lit 0.10))%R
  /\ (0 <= fst (calculate_connection_score init (@form_entry R _)) <= 11 / 10)%R
  /\ (0 <= snd (calculate_connection_score init (@form_entry R _)) <= 11 / 10)%R.
Proof.
  assert (Hj : (0 <= get (jockey_win_percentage (@form_entry R _)) (lit 0.10))%R)
    by (cbn [get jockey_win_percentage form_entry]; real_arith; lra).
  assert (Ht : (0 <= get (trainer_win_percentage (@form_entry R _)) (lit 0.12))%R)
    by (cbn [get trainer_win_percentage form_entry]; real_arith; lra).
  assert (Hc : (0 <= get (jockey_trainer_combo_win_pct (@form_entry R _)) (lit 0.10))%R)
    by (cbn [get jockey_trainer_combo_win_pct form_entry]; real_arith; lra).
  destruct (connection_scores_at_most_1_1 init form_entry)
    as [Hju [Htu [_ Hpos]]].
  destruct (Hpos Hj Ht Hc) as [Hj0 Ht0].
  repeat split; assumption.
Defined.

(** X4: in exact arithmetic, with the tables of [__init__], a composite
    score is at most 104.4 when no recent finish is negative
    (30 + 20 + 18 + 13.2 + 13.2 + 10), and at least 16 when moreover the
    base figure and the three rates are non-negative and the recent figures
    positive (class 0.8 and post 0.5 at the least). *)
Theorem composite_score_range :
  forall (h : horse R) (score : R),
    calculate_overall_score init h = Ok score ->
    Forall (fun finish => 0 <= finish) (get (recent_finishes h) [5; 5; 5]) ->
    (score <= 1044 / 10)%R
    /\ (0 <= get (beyer_speed_figure h) 70 ->
        Forall (fun figure => 0 < figure)
               (get (recent_beyer_figures h) [get (beyer_speed_figure h) 70]) ->
        (0 <= get (jockey_win_percentage h) (lit 0.10))%R ->
        (0 <= get (trainer_win_percentage h) (lit 0.12))%R ->
        (0 <= get (jockey_trainer_combo_win_pct h) (lit 0.10))%R ->
        (16 <= score)%R).
Proof.
  intros h score Hscore Hfin.
  unfold calculate_overall_score in Hscore.
  destruct (calculate_speed_score init h) as [speed|] eqn:Hspeed; [|discriminate].
  destruct (speed_score_real_bounds init h speed Hspeed) as [Hcap Hspeed0].
  destruct (form_score_real_bounds init h) as [form [Hform [Hf0 [Hf1 _]]]].
  specialize (Hf1 Hfin).
  rewrite Hform in Hscore; cbn [bind] in Hscore.
  pose proof (connection_scores_bounds_aux h) as Hconn.
  destruct (calculate_connection_score init h) as [jockey trainer].
  cbn [fst snd] in Hconn; destruct Hconn as [Hj1 [Ht1 Hconn0]].
  pose proof (class_score_real init h) as Hclass.
  pose proof (post_position_score_real h) as Hpost.
  change (sitem (weights (@init R _)) "speed_figure") with (Ok (lit 0.25 : R)) in Hscore.
  change (sitem (weights (@init R _)) "recent_form") with (Ok (lit 0.20 : R)) in Hscore.
  change (sitem (weights (@init R _)) "class_level") with (Ok (lit 0.15 : R)) in Hscore.
  change (sitem (weights (@init R _)) "jockey_skill") with (Ok (lit 0.12 : R)) in Hscore.
  change (sitem (weights (@init R _)) "trainer_stats") with (Ok (lit 0.12 : R)) in Hscore.
  change (sitem (weights (@init R _)) "post_position") with (Ok (lit 0.08 : R)) in Hscore.
  cbn [bind] in Hscore; injection Hscore as <-.
  real_arith.
  split; [lra|].
  intros Hbase Hfig Hj Ht Hc.
  specialize (Hspeed0 eq_refl Hbase Hfig).
  destruct (Hconn0 Hj Ht Hc) as [Hj0 Ht0].
  lra.
Qed.

Lemma composite_score_range_witness :
  Forall (fun finish => 0 <= finish) [2; 1; 3]
  /\ exists score : R,
       calculate_overall_score init (@form_entry R _) = Ok score
       /\ (16 <= score <= 1044 / 10)%R.
Proof.
  split; [repeat constructor; lia|].
  eexists; split; [reflexivity|].
  assert (Hfin : Forall (fun finish => 0 <= finish)
                   (get (recent_finishes (@form_entry R _)) [5; 5; 5]))
    by (repeat constructor; lia).
  destruct (composite_score_range form_entry _ eq_refl Hfin) as [Hup Hlow].
  split; [|exact Hup].
  apply Hlow; cbn [get form_entry beyer_speed_figure recent_beyer_figures
                   jockey_win_percentage trainer_win_percentage
                   jockey_trainer_combo_win_pct];
    try lia; try (repeat constructor; fail); real_arith; lra.
Defined.

(** ** The win probabilities *)

Section WinProbabilities.
Open Scope R_scope.
Import ExactLib.

Lemma rint_monotone (x y : R) : x <= y -> (rint x <= rint y)%Z.
Proof.
  intros [Hlt| ->]; [|lia].
  pose proof (rint_error x) as Hx; apply Rabs_le_inv in Hx.
  pose proof (rint_error y) as Hy; apply Rabs_le_inv in Hy.
  assert (H : (rint x < rint y + 1)%Z)
    by (apply lt_IZR; rewrite plus_IZR; lra).
  lia.
Qed.

Lemma round_monotone (x y : R) (ndigits : Z) :
  (0 <= ndigits)%Z -> x <= y -> round x ndigits <= round y ndigits.
Proof.
  intros Hn Hxy; unfold round.
  assert (Hpow : 0 < IZR (10 ^ ndigits)).
  { apply IZR_lt. apply Z.pow_pos_nonneg; lia. }
  apply Rmult_le_compat_r; [left; now apply Rinv_0_lt_compat|].
  apply IZR_le, rint_monotone. apply Rmult_le_compat_r; lra.
Qed.



Lemma softmax_monotone (scores : list R) (s t : R) :
  scores <> [] -> s <= t -> spec_softmax scores s <= spec_softmax scores t.
Proof.
  intros Hne Hst; unfold spec_softmax.
  pose proof (exp_sum_positive scores Hne) as Hsum.
  apply Rmult_le_compat_r; [left; now apply Rinv_0_lt_compat|].
  destruct Hst as [Hlt| ->]; [left; apply exp_increasing; lra | lra].
Qed.


Lemma renormalized_monotone (total p q : R) :
  p <= q -> renormalized total p <= renormalized total q.
Proof.
  intros Hpq.
  destruct (renormalized_real total p) as [[Hpos ->]|[Hle ->]],
           (renormalized_real total q) as [[Hpos' ->]|[Hle' ->]]; try lra.
  apply round_monotone; [lia|].
  apply Rmult_le_compat_r; [lra|].
  apply Rmult_le_compat_r; [left; now apply Rinv_0_lt_compat | exact Hpq].
Qed.


Lemma Forall2_In_r {A B : Type} (P : A -> B -> Prop) (l : list A) (l' : list B)
    (y : B) :
  Forall2 P l l' -> In y l' -> exists x, In x l /\ P x y.
Proof.
  induction 1 as [|a b l l' Hab _ IH]; [intros []|].
  intros [<-|Hin]; [exists a; split; [now left | assumption]|].
  destruct (IH Hin) as [x [Hx Hp]]; exists x; split; [now right | assumption].
Qed.

Lemma Forall2_In_l {A B : Type} (P : A -> B -> Prop) (l : list A) (l' : list B)
    (x : A) :
  Forall2 P l l' -> In x l -> exists y, In y l' /\ P x y.
Proof.
  induction 1 as [|a b l l' Hab _ IH]; [intros []|].
  intros [<-|Hin]; [exists b; split; [now left | assumption]|].
  destruct (IH Hin) as [y [Hy Hp]]; exists y; split; [now right | assumption].
Qed.

(** Every row of the returned table, from the composite score of its
    horse. *)
Lemma predict_race_rows (sort_values_desc : dataframe R -> dataframe R)
    (self : predictor R) (hs : list (horse R)) (df : dataframe R) :
  (forall table, Permutation (sort_values_desc table) table) ->
  predict_race sort_values_desc self hs = Ok df ->
  exists scores : list R,
    comprehension (calculate_overall_score self) hs = Ok scores
    /\ scores <> []
    /\ Forall (fun labelled =>
                 exists s,
                   In s scores
                   /\ Score (snd labelled) = round s 2
                   /\ Win_Probability (snd labelled)
                      = renormalized (rsum (spec_first_round scores))
                          (round (spec_softmax scores s * 100) 1)) df.
Proof.
  intros Hperm Hdf.
  destruct (predict_race_first_round sort_values_desc self hs df Hperm Hdf)
    as [results' [scores [Hall [Hne [_ [_ [_ _]]]]]]].
  apply predict_race_inv in Hdf; destruct Hdf as [results [Hres [_ Hdf]]].
  cbv zeta in Hdf.
  destruct (rows_first_round self hs results Hres) as [scores' [Hall' Hmap]].
  rewrite Hall in Hall'; injection Hall' as <-.
  assert (Htotal : series_sum
                     (map (fun ir : Z * row R => Win_Probability (snd ir))
                          (sort_values_desc (enumerate results)))
                   = rsum (spec_first_round scores)).
  { cbn [series_sum real_lib]; rewrite sum_rsum.
    apply rsum_Permutation. rewrite <- Hmap. apply sorted_column, Hperm. }
  rewrite Htotal in Hdf.
  exists scores; split; [exact Hall|]. split; [exact Hne|].
  subst df; apply Forall_forall; intros ir Hin.
  apply in_map_iff in Hin; destruct Hin as [[i r] [<- Hin]].
  apply (Permutation_in _ (Hperm _)), enumerate_In in Hin.
  destruct Hin as [_ Hnth]. apply nth_error_In in Hnth.
  apply comprehension_Forall2 in Hres.
  destruct (Forall2_In_r _ _ _ _ Hres Hnth) as [h [Hh Hrow]].
  apply result_row_inv in Hrow.
  destruct Hrow as [s [all_scores [Hs [Hall' [_ [Hscore Hwp]]]]]].
  rewrite Hall in Hall'; injection Hall' as <-.
  apply comprehension_Forall2 in Hall.
  destruct (Forall2_In_l _ _ _ _ Hall Hh) as [s' [Hs' Hs'']].
  rewrite Hs in Hs''; injection Hs'' as <-.
  exists s; split; [exact Hs'|].
  cbn [reweigh snd set_Win_Probability Score Win_Probability].
  split; [exact Hscore|].
  rewrite Hwp, share_real. reflexivity.
Qed.

End WinProbabilities.





(** X7: in exact arithmetic, of two rows of the returned table the one with
    the strictly higher Score never has the lower Win_Probability: the
    probabilities are computed from the unrounded composite scores, and
    rounding, the softmax and the second pass are all monotone. *)
Theorem higher_score_no_lower_probability :
  forall (sort_values_desc : dataframe R -> dataframe R) (self : predictor R)
         (horses_data : list (horse R)) (df : dataframe R)
         (lower higher : Z * row R),
    (forall table, Permutation (sort_values_desc table) table) ->
    predict_race sort_values_desc self horses_data = Ok df ->
    In lower df -> In higher df ->
    (Score (snd lower) < Score (snd higher))%R ->
    (Win_Probability (snd lower) <= Win_Probability (snd higher))%R.
Proof.
  intros sort self hs df lower higher Hperm Hdf Hlow Hhigh Hscore.
  destruct (predict_race_rows sort self hs df Hperm Hdf)
    as [scores [_ [Hne Hrows]]].
  rewrite Forall_forall in Hrows.
  destruct (Hrows lower Hlow) as [s [_ [Hs ->]]].
  destruct (Hrows higher Hhigh) as [t [_ [Ht ->]]].
  rewrite Hs, Ht in Hscore.
  assert (Hst : (s <= t)%R).
  { destruct (Rle_dec s t) as [|Hn]; [assumption|].
    assert (Hts : (t <= s)%R) by lra.
    pose proof (round_monotone t s 2 ltac:(lia) Hts). lra. }
  apply renormalized_monotone, round_monotone; [lia|].
  apply Rmult_le_compat_r; [lra|].
  now apply softmax_monotone.
Qed.

(** ** How the form score weighs the finishes *)

Section FormWeights.
Open Scope R_scope.

Lemma combine_shifted_range {A : Type} (l : list A) (s : nat) :
  combine (map (fun j => (0 + Z.of_nat j)%Z) (List.seq s (List.length l))) l
  = enum_from (Z.of_nat s) l.
Proof.
  revert s; induction l as [|a l IH]; intros s;
    cbn [List.length List.seq map combine enum_from]; [reflexivity|].
  rewrite IH. do 2 f_equal; lia.
Qed.

Lemma enumerate_enum_from {A : Type} (l : list A) : enumerate l = enum_from 0 l.
Proof.
  unfold enumerate, range, len. rewrite Z.sub_0_r, Nat2Z.id.
  apply (combine_shifted_range l 0).
Qed.


Lemma weighted_average_quotient (finishes : list Z) :
  spec_weighted_average finishes
  = spec_numerator (len finishes) (enum_from 0 (rev finishes))
    / spec_denominator (len finishes) (enum_from 0 (rev finishes)).
Proof.
  unfold spec_weighted_average; now rewrite enumerate_enum_from.
Qed.


Lemma denominator_positive (n : Z) (l : list Z) (k : Z) :
  (0 < n)%Z -> (0 <= k)%Z -> l <> [] -> 0 < spec_denominator n (enum_from k l).
Proof.
  unfold spec_denominator; intros Hn.
  revert k; induction l as [|a l IH]; intros k Hk Hne; [contradiction|].
  cbn [enum_from map rsum fst].
  pose proof (weight_positive n k Hn Hk).
  destruct l as [|b l]; [cbn; lra|].
  assert (0 < rsum (map (fun item => spec_weight n (fst item))
                        (enum_from (k + 1) (b :: l))))
    by (apply IH; [lia | discriminate]).
  lra.
Qed.



(** A constant list of finishes averages to the score of the constant. *)
Lemma numerator_constant (n finish : Z) (count : nat) (k : Z) :
  spec_numerator n (enum_from k (repeat finish count))
  = spec_position_score finish
    * spec_denominator n (enum_from k (repeat finish count)).
Proof.
  unfold spec_numerator, spec_denominator.
  revert k; induction count as [|count IH]; intros k;
    cbn [repeat enum_from map rsum fst snd]; [ring|].
  rewrite IH; ring.
Qed.

Lemma form_score_value (self : predictor R) (h : horse R) (finishes : list Z) :
  recent_finishes h = Some finishes -> finishes <> [] ->
  calculate_form_score self h = Ok (spec_weighted_average finishes).
Proof.
  intros Hf Hne.
  destruct (form_score_real_bounds self h) as [v [Hv [_ [_ Hval]]]].
  rewrite Hf in Hval; cbn [get] in Hval.
  rewrite Hv, Hval; [reflexivity|].
  destruct finishes; [contradiction | unfold len; cbn; lia].
Qed.

Lemma rev_repeat_same {A : Type} (a : A) (n : nat) : rev (repeat a n) = repeat a n.
Proof.
  induction n as [|n IH]; [reflexivity|].
  cbn [repeat rev]; rewrite IH.
  clear IH; induction n as [|n IH]; [reflexivity|].
  cbn [repeat app]; now rewrite IH.
Qed.


Lemma weighted_average_constant (finish : Z) (races : nat) :
  spec_weighted_average (repeat finish (S races)) = spec_position_score finish.
Proof.
  rewrite weighted_average_quotient, rev_repeat_same, numerator_constant.
  assert (Hpos : 0 < spec_denominator (len (repeat finish (S races)))
                       (enum_from 0 (repeat finish (S races)))).
  { apply denominator_positive; [unfold len; cbn [repeat List.length]; lia
                                | lia | discriminate]. }
  field. lra.
Qed.

End FormWeights.



Section OldestFinish.
Open Scope R_scope.




End OldestFinish.



(** On binary64: finishes 1, 5, 9 score 0.633 and finishes 9, 5, 1 score
    0.367. *)
Example first_finish_weighs_most_binary64 :
  calculate_form_score init (with_recent_finishes (@form_entry float _) [1; 5; 9])
  = Ok 0.6333333333333333%float
  /\ calculate_form_score init (with_recent_finishes (@form_entry float _) [9; 5; 1])
     = Ok 0.36666666666666664%float.
Proof. split; vm_compute; reflexivity. Qed.

(** ** A race with a clear favourite *)

Section UnevenRace.
Open Scope R_scope.
Import ExactLib.

(** The recent finishes enter the composite score through the form term
    only, 20 points per unit of form score. *)
Lemma overall_score_other_finishes (h : horse R) (finishes : list Z)
    (score form form' : R) :
  calculate_overall_score init h = Ok score ->
  calculate_form_score init h = Ok form ->
  calculate_form_score init (with_recent_finishes h finishes) = Ok form' ->
  calculate_overall_score init (with_recent_finishes h finishes)
  = Ok (score + (form' - form) * 20).
Proof.
  intros Hscore Hform Hform'.
  unfold calculate_overall_score in *.
  change (calculate_speed_score init (with_recent_finishes h finishes))
    with (calculate_speed_score init h).
  change (calculate_class_score init (with_recent_finishes h finishes))
    with (calculate_class_score init h).
  change (calculate_connection_score init (with_recent_finishes h finishes))
    with (calculate_connection_score init h).
  change (calculate_post_position_score init (with_recent_finishes h finishes))
    with (calculate_post_position_score init h).
  rewrite Hform'; rewrite Hform in Hscore.
  destruct (calculate_speed_score init h) as [speed|]; [|discriminate].
  cbn [bind] in *.
  destruct (calculate_connection_score init h) as [jockey trainer].
  change (sitem (weights (@init R _)) "speed_figure") with (Ok (lit 0.25 : R)) in *.
  change (sitem (weights (@init R _)) "recent_form") with (Ok (lit 0.20 : R)) in *.
  change (sitem (weights (@init R _)) "class_level") with (Ok (lit 0.15 : R)) in *.
  change (sitem (weights (@init R _)) "jockey_skill") with (Ok (lit 0.12 : R)) in *.
  change (sitem (weights (@init R _)) "trainer_stats") with (Ok (lit 0.12 : R)) in *.
  change (sitem (weights (@init R _)) "post_position") with (Ok (lit 0.08 : R)) in *.
  cbn [bind] in *. injection Hscore as <-.
  f_equal. real_arith. lra.
Qed.

(** Two composite scores 0.02 apart have distinct Scores. *)
Lemma round_two_decimals_strict (x y : R) :
  x + 2 / 100 <= y -> round x 2 < round y 2.
Proof.
  intros Hxy; unfold round.
  change (10 ^ 2)%Z with 100%Z.
  pose proof (rint_error (x * 100)) as Hx; apply Rabs_le_inv in Hx.
  pose proof (rint_error (y * 100)) as Hy; apply Rabs_le_inv in Hy.
  assert (H : (rint (x * 100) < rint (y * 100))%Z) by (apply lt_IZR; lra).
  apply IZR_lt in H. lra.
Qed.

Lemma Forall2_nth_error_l {A B : Type} (P : A -> B -> Prop) (l : list A)
    (l' : list B) (k : nat) (x : A) :
  Forall2 P l l' -> nth_error l k = Some x ->
  exists y, nth_error l' k = Some y /\ P x y.
Proof.
  intros Hf; revert k; induction Hf as [|a b l l' Hab _ IH]; intros k.
  - destruct k; discriminate.
  - destruct k as [|k]; cbn [nth_error].
    + intros [= <-]; now exists b.
    + apply IH.
Qed.

Lemma enum_from_nth {A : Type} (l : list A) (j : Z) (k : nat) (a : A) :
  nth_error l k = Some a -> In ((j + Z.of_nat k)%Z, a) (enum_from j l).
Proof.
  revert j k; induction l as [|b l IH]; intros j k; [destruct k; discriminate|].
  destruct k as [|k]; cbn [nth_error enum_from].
  - intros [= <-]; left; f_equal; lia.
  - intros Hk; right.
    replace (j + Z.of_nat (S k))%Z with (j + 1 + Z.of_nat k)%Z by lia.
    now apply IH.
Qed.

(** Every input horse has its row in the table. *)
Lemma predict_race_row_of_horse (sort_values_desc : dataframe R -> dataframe R)
    (self : predictor R) (hs : list (horse R)) (df : dataframe R)
    (k : nat) (h : horse R) (score : R) :
  (forall table, Permutation (sort_values_desc table) table) ->
  predict_race sort_values_desc self hs = Ok df ->
  nth_error hs k = Some h ->
  calculate_overall_score self h = Ok score ->
  exists labelled,
    In labelled df /\ fst labelled = Z.of_nat k
    /\ Score (snd labelled) = round score 2.
Proof.
  intros Hperm Hdf Hk Hscore.
  apply predict_race_inv in Hdf; destruct Hdf as [results [Hres [_ Hdf]]].
  cbv zeta in Hdf.
  apply comprehension_Forall2 in Hres.
  destruct (Forall2_nth_error_l _ _ _ _ _ Hres Hk) as [r [Hr Hrow]].
  apply result_row_inv in Hrow.
  destruct Hrow as [s [_ [Hs [_ [_ [Hround _]]]]]].
  rewrite Hscore in Hs; injection Hs as <-.
  apply (enum_from_nth results 0 k) in Hr.
  rewrite <- enumerate_enum_from, Z.add_0_l in Hr.
  apply (Permutation_in _ (Permutation_sym (Hperm _))) in Hr.
  eexists; split; [subst df; apply in_map; exact Hr|].
  split; [reflexivity | exact Hround].
Qed.

End UnevenRace.

Lemma higher_score_no_lower_probability_witness :
  (forall table, Permutation (insertion_sort_desc table) table)
  /\ exists (df : dataframe R) (lower higher : Z * row R),
       predict_race insertion_sort_desc init uneven_race = Ok df
       /\ In lower df /\ In higher df
       /\ (Score (snd lower) < Score (snd higher))%R
       /\ (Win_Probability (snd lower) <= Win_Probability (snd higher))%R.
Proof.
  split; [exact insertion_sort_desc_Permutation|].
  assert (Hentry : exists s f,
             calculate_overall_score init (@form_entry R _) = Ok s
             /\ calculate_form_score init (@form_entry R _) = Ok f)
    by (do 2 eexists; split; reflexivity).
  destruct Hentry as [s [f [Hs Hf]]].
  pose proof (overall_score_other_finishes form_entry [9; 9; 9] s f _ Hs Hf
                (form_score_value init (with_recent_finishes form_entry [9; 9; 9])
                   (repeat 9 3) eq_refl ltac:(discriminate)))
    as Hlow.
  pose proof (overall_score_other_finishes form_entry [1; 1; 1] s f _ Hs Hf
                (form_score_value init (with_recent_finishes form_entry [1; 1; 1])
                   (repeat 1 3) eq_refl ltac:(discriminate)))
    as Hhigh.
  rewrite weighted_average_constant in Hlow, Hhigh.
  destruct (results_outcome (F:=R) uneven_race uneven_race (incl_refl _))
    as [[Hbad _]|[_ [results [Hres Hlen]]]]; [discriminate Hbad|].
  destruct (predict_race_returns insertion_sort_desc init uneven_race results Hres)
    as [df Hdf]; [intros ->; discriminate Hlen|].
  destruct (predict_race_row_of_horse insertion_sort_desc init uneven_race df
              0 _ _ insertion_sort_desc_Permutation Hdf eq_refl Hlow)
    as [lower [Hin_low [_ Hscore_low]]].
  destruct (predict_race_row_of_horse insertion_sort_desc init uneven_race df
              1 _ _ insertion_sort_desc_Permutation Hdf eq_refl Hhigh)
    as [higher [Hin_high [_ Hscore_high]]].
  assert (Hlt : (Score (snd lower) < Score (snd higher))%R).
  { rewrite Hscore_low, Hscore_high.
    apply round_two_decimals_strict.
    unfold spec_position_score.
    rewrite (Rmax_right 0 ((10 - 9) / 10)) by lra.
    rewrite (Rmax_right 0 ((10 - 1) / 10)) by lra.
    lra. }
  exists df, lower, higher.
  repeat (split; [assumption|]).
  exact (higher_score_no_lower_probability insertion_sort_desc init uneven_race
           df lower higher insertion_sort_desc_Permutation Hdf Hin_low Hin_high Hlt).
Defined.

(** ** The form and the tables of the engine *)

Example option_characters :
  (String space EmptyString, String hyphen EmptyString,
   String underscore EmptyString) = (" ", "-", "_").
Proof. reflexivity. Qed.

Lemma class_option_rank (k : nat) (choice : string) :
  nth_error class_options k = Some choice ->
  lookup String.eqb class_hierarchy (replace space underscore (lower choice))
  = Some (Z.of_nat k + 1)
  /\ (k < 5)%nat.
Proof.
  intros Hk.
  do 5 (destruct k as [|k];
        [injection Hk as <-; split; [reflexivity | lia]|]).
  destruct k; discriminate Hk.
Qed.

Lemma track_option_rank {F : Type} `{PyNum F} (k : nat) (choice : string) :
  nth_error track_condition_options k = Some choice ->
  lookup String.eqb (track_variants init)
    (replace hyphen underscore (lower choice))
  = nth_error (map snd (track_variants init)) k
  /\ (k < 6)%nat.
Proof.
  intros Hk.
  do 6 (destruct k as [|k];
        [injection Hk as <-; split; [reflexivity | lia]|]).
  destruct k; discriminate Hk.
Qed.

(** X11: for a record built by the form, the class score compares the ranks
    of the two choices in the select box: 1.2 when the horse's class comes
    after the race's, 1.0 when they are the same, 0.8 otherwise.  Each
    choice, lower-cased with its space replaced, is a key of the engine's
    table, at the same rank, so the default level is never used; the sixth
    level, [grade_1], cannot be chosen. *)
Theorem class_score_of_form_choices :
  forall (F : Type) (N : PyNum F) (entries : form_fields F) (i j : nat),
    nth_error class_options i = Some (race_class_choice entries) ->
    nth_error class_options j = Some (horse_class_choice entries) ->
    lookup String.eqb class_hierarchy
      (get (race_class (horse_data_of_form entries)) "claiming")
    = Some (Z.of_nat i + 1)
    /\ lookup String.eqb class_hierarchy
         (get (horse_class (horse_data_of_form entries)) "claiming")
       = Some (Z.of_nat j + 1)
    /\ (i < 5)%nat /\ (j < 5)%nat
    /\ calculate_class_score init (horse_data_of_form entries)
       = if (i <? j)%nat then lit 1.2
         else if (i =? j)%nat then lit 1.0 else lit 0.8.
Proof.
  intros F N entries i j Hi Hj.
  destruct (class_option_rank i _ Hi) as [Hrace Hi5].
  destruct (class_option_rank j _ Hj) as [Hhorse Hj5].
  unfold calculate_class_score, sget.
  cbn [horse_data_of_form race_class horse_class get].
  rewrite Hrace, Hhorse; cbn [get].
  repeat (split; [reflexivity || assumption|]).
  destruct (Nat.ltb_spec i j), (Z.gtb_spec (Z.of_nat j + 1) (Z.of_nat i + 1));
    try lia; [reflexivity|].
  destruct (Nat.eqb_spec i j), (Z.eqb_spec (Z.of_nat j + 1) (Z.of_nat i + 1));
    try lia; reflexivity.
Qed.

Lemma class_score_of_form_choices_witness :
  nth_error class_options 0 = Some "Maiden"
  /\ nth_error class_options 4 = Some "Graded Stakes"
  /\ calculate_class_score init
       (horse_data_of_form
          {| horse_name := "A"; beyer_figure := 85;
             recent_beyer_list := [82; 84; 85]; recent_finishes_list := [2; 1; 3];
             race_class_choice := "Maiden"; horse_class_choice := "Graded Stakes";
             jockey_pct := 12%float; trainer_pct := 15%float;
             combo_pct := 20%float; post_position_entry := 1;
             field_size_entry := 8; distance := 8.5%float;
             track_condition_choice := "Turf-Firm" |})
     = 1.2%float.
Proof.
  split; [reflexivity|]. split; [reflexivity|].
  destruct (class_score_of_form_choices float float_num
              {| horse_name := "A"; beyer_figure := 85;
                 recent_beyer_list := [82; 84; 85]; recent_finishes_list := [2; 1; 3];
                 race_class_choice := "Maiden"; horse_class_choice := "Graded Stakes";
                 jockey_pct := 12%float; trainer_pct := 15%float;
                 combo_pct := 20%float; post_position_entry := 1;
                 field_size_entry := 8; distance := 8.5%float;
                 track_condition_choice := "Turf-Firm" |}
              0 4 eq_refl eq_refl) as [_ [_ [_ [_ Hscore]]]].
  rewrite Hscore. vm_compute. reflexivity.
Defined.

(** X12: for a record built by the form, the track condition chosen,
    lower-cased with its hyphen replaced, is a key of [track_variants], at
    the rank of the choice in the select box: the speed score never falls
    back on the default multiplier. *)
Theorem track_condition_of_form_choice :
  forall (F : Type) (N : PyNum F) (entries : form_fields F) (k : nat),
    nth_error track_condition_options k = Some (track_condition_choice entries) ->
    lookup String.eqb (track_variants init)
      (get (track_condition (horse_data_of_form entries)) "fast")
    = nth_error (map snd (track_variants (@init F N))) k
    /\ (k < 6)%nat.
Proof.
  intros F N entries k Hk.
  cbn [horse_data_of_form track_condition get].
  exact (track_option_rank k _ Hk).
Qed.

Lemma track_condition_of_form_choice_witness :
  nth_error track_condition_options 4 = Some "Turf-Firm"
  /\ lookup String.eqb (track_variants init)
       (replace hyphen underscore (lower "Turf-Firm"))
     = Some 0.98%float.
Proof.
  split; [reflexivity|].
  destruct (track_condition_of_form_choice float float_num
              {| horse_name := "A"; beyer_figure := 85;
                 recent_beyer_list := [82; 84; 85]; recent_finishes_list := [2; 1; 3];
                 race_class_choice := "Maiden"; horse_class_choice := "Graded Stakes";
                 jockey_pct := 12%float; trainer_pct := 15%float;
                 combo_pct := 20%float; post_position_entry := 1;
                 field_size_entry := 8; distance := 8.5%float;
                 track_condition_choice := "Turf-Firm" |}
              4 eq_refl) as [Hkey _].
  cbn [horse_data_of_form track_condition get track_condition_choice] in Hkey.
  rewrite Hkey. vm_compute. reflexivity.
Defined.

(** ** The prediction section *)

Section Shown.
Open Scope R_scope.

Lemma StronglySorted_last {A : Type} (R : A -> A -> Prop) (l : list A) (z : A) :
  StronglySorted R (l ++ [z]) -> Forall (fun x => R x z) l.
Proof.
  induction l as [|a l IH]; cbn [app]; intros Hs; [constructor|].
  apply StronglySorted_inv in Hs; destruct Hs as [Hs Ha].
  constructor; [|now apply IH].
  rewrite Forall_forall in Ha; apply Ha, in_or_app; right; now left.
Qed.

Lemma getitem_last {A : Type} (l : list A) (z : A) :
  getitem (l ++ [z]) (-1) = Ok z.
Proof.
  unfold getitem, len; rewrite length_app; cbn [List.length Z.ltb Z.compare].
  replace (Z.of_nat (List.length l + 1) + -1)%Z with (Z.of_nat (List.length l))
    by lia.
  destruct (Z.ltb_spec (Z.of_nat (List.length l)) 0); [lia|].
  rewrite Nat2Z.id, nth_error_app2, Nat.sub_diag by lia. reflexivity.
Qed.

(** The table is in descending order of Score and has one row per horse. *)
Lemma predict_race_table (sort_values_desc : dataframe R -> dataframe R)
    (self : predictor R) (hs : list (horse R)) (df : dataframe R) :
  sort_values_contract sort_values_desc ->
  predict_race sort_values_desc self hs = Ok df ->
  StronglySorted (fun upper lower => Score (snd lower) <= Score (snd upper)) df
  /\ List.length df = List.length hs.
Proof.
  intros Hsort Hdf.
  apply predict_race_inv in Hdf; destruct Hdf as [results [Hres [_ Hdf]]].
  cbv zeta in Hdf; subst df.
  destruct (Hsort (enumerate results)) as [Hperm Hdesc].
  split.
  - apply Sorted_StronglySorted; [intros a b c Hab Hbc; lra|].
    apply descending_reweigh; exact Hdesc.
  - rewrite length_map, (Permutation_length Hperm).
    apply comprehension_Forall2, Forall2_length in Hres.
    rewrite <- (enumerate_snd_map results) in Hres at 1.
    rewrite length_map in Hres. congruence.
Qed.

Lemma predict_race_raises_zero_division
    (sort_values_desc : dataframe R -> dataframe R) (hs : list (horse R))
    (e : exn) :
  hs <> [] ->
  predict_race sort_values_desc init hs = Raise e -> e = ZeroDivisionError.
Proof.
  intros Hne Hraise.
  destruct (results_outcome (F:=R) hs hs (incl_refl _))
    as [[_ [Hnil|Hr]]|[_ [results [Hres Hlen]]]].
  - contradiction.
  - unfold predict_race in Hraise; rewrite Hr in Hraise.
    cbn [bind] in Hraise; congruence.
  - destruct (predict_race_returns sort_values_desc init hs results Hres)
      as [df Hdf]; [intros ->; destruct hs; [contradiction | discriminate]|].
    congruence.
Qed.

End Shown.

(** X13: in exact arithmetic, for every sort that meets the contract and
    a session whose records hold ints that fit a double: when the
    prediction section is shown the session holds at least two horses, and
    the section either fails with the [ZeroDivisionError] of the trend or
    shows a table and three picks, of which the favourite has the highest
    Score of the table and the value play a Score no higher.  With three
    horses or more the longshot has the lowest Score of the table; with
    exactly two the row shown as longshot is the favourite itself.  The
    picks never raise an [IndexError].  (An int that does not fit makes
    CPython raise [OverflowError] in [predict_race].) *)
Theorem betting_strategy_of_the_table :
  forall (sort_values_desc : dataframe R -> dataframe R)
         (horses : list (horse R))
         (outcome : result (dataframe R * picks R)),
    sort_values_contract sort_values_desc ->
    Forall ints_fit_float horses ->
    prediction_section sort_values_desc horses = Some outcome ->
    2 <= len horses
    /\ (outcome = Raise ZeroDivisionError
        \/ exists df shown,
             outcome = Ok (df, shown)
             /\ Forall (fun labelled =>
                          (Score (snd labelled) <= Score (favorite shown))%R) df
             /\ (Score (best_value shown) <= Score (favorite shown))%R
             /\ ((len horses = 2 /\ longshot shown = favorite shown)
                 \/ (3 <= len horses
                     /\ Forall (fun labelled =>
                                  (Score (longshot shown)
                                   <= Score (snd labelled))%R) df))).
Proof.
  intros sort horses outcome Hsort _ Hshown.
  unfold prediction_section in Hshown.
  destruct (Z.eqb_spec (len horses) 0) as [|Hne]; [discriminate|].
  destruct (Z.leb_spec 2 (len horses)) as [Hlen|]; [|discriminate].
  cbn [negb andb] in Hshown; injection Hshown as <-.
  split; [exact Hlen|].
  destruct (predict_race sort init horses) as [df|e] eqn:Hdf; cbn [bind].
  2:{ left. f_equal.
      apply (predict_race_raises_zero_division sort horses e); [|exact Hdf].
      intros ->; unfold len in Hlen; cbn in Hlen; lia. }
  right.
  destruct (predict_race_table sort init horses df Hsort Hdf) as [Hsorted Hrows].
  assert (Hlen_df : len df = len horses) by (unfold len; now rewrite Hrows).
  destruct df as [|top [|second rest]];
    try (unfold len in *; cbn [List.length] in *; lia).
  pose proof (StronglySorted_inv Hsorted) as [_ Htop].
  assert (Hall : Forall (fun labelled : Z * row R =>
                           (Score (snd labelled) <= Score (snd top))%R)
                        (top :: second :: rest)).
  { constructor; [lra | exact Htop]. }
  unfold betting_strategy.
  change (iloc (top :: second :: rest) 0) with (Ok (snd top)).
  change (iloc (top :: second :: rest) 1) with (Ok (snd second)).
  rewrite Hlen_df.
  destruct (Z.ltb_spec 1 (len horses)) as [_|]; [|lia].
  cbn [bind].
  destruct (Z.leb_spec 3 (len horses)) as [H3|H3].
  - destruct (@exists_last _ (top :: second :: rest)) as [front [last Hlast]];
      [discriminate|].
    unfold iloc; rewrite Hlast, map_app; cbn [map].
    rewrite getitem_last; cbn [bind].
    do 2 eexists; split; [reflexivity|]; cbn [favorite best_value longshot].
    rewrite <- Hlast.
    split; [exact Hall|].
    split; [inversion Htop; assumption|].
    right; split; [exact H3|].
    rewrite Hlast in Hsorted |- *.
    apply Forall_app; split; [|constructor; [lra | constructor]].
    apply (StronglySorted_last _ _ _ Hsorted).
  - do 2 eexists; split; [reflexivity|]; cbn [favorite best_value longshot].
    split; [exact Hall|].
    split; [inversion Htop; assumption|].
    left; split; [lia | reflexivity].
Qed.

Lemma betting_strategy_of_the_table_witness :
  sort_values_contract insertion_sort_desc
  /\ Forall ints_fit_float uneven_race
  /\ exists outcome,
       prediction_section insertion_sort_desc uneven_race = Some outcome
       /\ 2 <= len uneven_race
       /\ (outcome = Raise ZeroDivisionError
           \/ exists df shown,
                outcome = Ok (df, shown)
                /\ (Score (best_value shown) <= Score (favorite shown))%R).
Proof.
  split; [exact insertion_sort_desc_contract|].
  assert (Hfit : Forall ints_fit_float uneven_race) by fits.
  split; [exact Hfit|].
  eexists; split; [reflexivity|].
  destruct (betting_strategy_of_the_table insertion_sort_desc uneven_race _
              insertion_sort_desc_contract Hfit eq_refl)
    as [Hlen [Hraise|[df [shown [Hout [_ [Hvalue _]]]]]]].
  - split; [exact Hlen|]. left; exact Hraise.
  - split; [exact Hlen|]. right; exists df, shown; split; assumption.
Defined.

(** ** The trend of the speed score *)

Section Trend.
Open Scope R_scope.


End Trend.



(** ** The "Top 5" table *)

Lemma StronglySorted_app_cross {A : Type} (R : A -> A -> Prop) (l l' : list A) :
  StronglySorted R (l ++ l') -> Forall (fun x => Forall (R x) l') l.
Proof.
  induction l as [|a l IH]; cbn [app]; intros Hs; [constructor|].
  apply StronglySorted_inv in Hs; destruct Hs as [Hs Ha].
  constructor; [|now apply IH].
  apply Forall_app in Ha; tauto.
Qed.

(** X15: in exact arithmetic, for every sort that meets the contract, the
    "Top 5" table holds five rows, or all of them when there are fewer, and
    no row left out of it has a Score above that of a row shown. *)
Theorem top_five_outrank_the_rest :
  forall (sort_values_desc : dataframe R -> dataframe R) (self : predictor R)
         (horses_data : list (horse R)) (df : dataframe R),
    sort_values_contract sort_values_desc ->
    predict_race sort_values_desc self horses_data = Ok df ->
    List.length (head df 5) = Nat.min 5 (List.length horses_data)
    /\ Forall (fun shown =>
                 Forall (fun left_out =>
                           (Score (snd left_out) <= Score (snd shown))%R)
                        (skipn 5 df))
              (head df 5).
Proof.
  intros sort self hs df Hsort Hdf.
  destruct (predict_race_table sort self hs df Hsort Hdf) as [Hsorted Hlen].
  unfold head; split; [rewrite length_firstn; now rewrite Hlen|].
  rewrite <- (firstn_skipn 5 df) in Hsorted.
  exact (StronglySorted_app_cross _ _ _ Hsorted).
Qed.

Lemma top_five_outrank_the_rest_witness :
  sort_values_contract insertion_sort_desc
  /\ exists df,
       predict_race insertion_sort_desc init six_alike = Ok df
       /\ List.length (head df 5) = 5%nat
       /\ Forall (fun shown =>
                    Forall (fun left_out =>
                              (Score (snd left_out) <= Score (snd shown))%R)
                           (skipn 5 df))
                 (head df 5).
Proof.
  split; [exact insertion_sort_desc_contract|].
  destruct (results_outcome (F:=R) six_alike six_alike (incl_refl _))
    as [[Hbad _]|[_ [results [Hres Hlen]]]]; [discriminate Hbad|].
  destruct (predict_race_returns insertion_sort_desc init six_alike results Hres)
    as [df Hdf]; [intros ->; discriminate Hlen|].
  exists df; split; [exact Hdf|].
  exact (top_five_outrank_the_rest insertion_sort_desc init six_alike df
           insertion_sort_desc_contract Hdf).
Defined.

(** ** Post positions in a large field *)

(** X17: in exact arithmetic, in a field of more than 10 the post score
    never increases from post 1 to post 20: of two posts in that range the
    outer one scores no higher. *)
Theorem large_field_post_score_antitone :
  forall (self : predictor R) (inner outer : horse R),
    10 < get (field_size inner) 10 ->
    10 < get (field_size outer) 10 ->
    1 <= get (post_position inner) 5 ->
    get (post_position inner) 5 <= get (post_position outer) 5 ->
    get (post_position outer) 5 <= 20 ->
    (calculate_post_position_score self outer
     <= calculate_post_position_score self inner)%R.
Proof.
  intros self inner outer Hin Hout H1 Hle H20.
  unfold calculate_post_position_score.
  destruct (Z.leb_spec (get (field_size inner) 10) 6); [lia|].
  destruct (Z.leb_spec (get (field_size inner) 10) 10); [lia|].
  destruct (Z.leb_spec (get (field_size outer) 10) 6); [lia|].
  destruct (Z.leb_spec (get (field_size outer) 10) 10); [lia|].
  rewrite !large_field_weights_get.
  set (p := get (post_position inner) 5) in *.
  set (q := get (post_position outer) 5) in *.
  destruct (Z.leb_spec 1 p); [|lia]. destruct (Z.ltb_spec p 21); [|lia].
  destruct (Z.leb_spec 1 q); [|lia]. destruct (Z.ltb_spec q 21); [|lia].
  cbn [andb]. real_arith. rewrite !minus_IZR.
  apply IZR_le in Hle.
  apply Rle_max_compat_l. lra.
Qed.

Lemma large_field_post_score_antitone_witness :
  10 < 12 /\ 1 <= 3 /\ 3 <= 9 /\ 9 <= 20
  /\ (calculate_post_position_score init (with_post (@form_entry R _) 9 12)
      <= calculate_post_position_score init (with_post (@form_entry R _) 3 12))%R.
Proof.
  repeat (split; [lia|]).
  apply (large_field_post_score_antitone init
           (with_post form_entry 3 12) (with_post form_entry 9 12));
    cbn [get with_post field_size post_position]; lia.
Defined.
